(** * Smartclass: a shallow embedding of [server.js]

    The repository holds two variants of one Express/Mongoose server.
    Handlers become functions [Store -> outcome * Store]; the document
    store is a record of collections, each an association list in
    insertion order (the order [findOne] scans).

    Scope of the model.  A field of a request body is a [field]: a value
    of the schema's type, [null], or absent; a body is made of the fields
    of its schema.  A stored field is an [option]: [None] is a field
    without a value, stored as [null] or not stored, which every read of
    the handlers treats alike.  A document id is an ObjectId, drawn from
    a counter when a document is saved; the string of a route parameter
    becomes one through Mongoose's cast.

    What the libraries and the built-ins of JavaScript compute is an
    interface, [Env]: bcryptjs, jsonwebtoken, the cast to ObjectId,
    [trim], [charAt], [toUpperCase] and [toLowerCase], and the regular
    expressions as MongoDB evaluates them.  The theorems are stated for
    every environment, so for whatever these compute on text of any
    script, and name what they ask of it where they ask something (that
    bcrypt accepts the hash it made, that [toLowerCase] leaves its own
    results as they are).  The string operations defined here ([split] at a blank, [startsWith]
    and [slice] past an ASCII prefix, concatenation, equality) are the
    same whether a string is read as its code units or as its UTF-8
    bytes.  [AsciiText] and [RegExp] give the built-ins on ASCII text and
    a fragment of the expressions; the examples run in the environment
    made of them. *)

From Stdlib Require Import Ascii String.
From Stdlib Require Import Floats.SpecFloat.
From stdpp Require Import base decidable option list strings.

Local Open Scope string_scope.

(** ** JavaScript string primitives *)

Module JsString.

(** [s.split(sep)] for a one-unit separator. *)
Fixpoint split (sep : ascii) (s : string) : list string :=
  match s with
  | EmptyString => [EmptyString]
  | String c r =>
      if Ascii.eqb c sep then EmptyString :: split sep r
      else match split sep r with
           | [] => [String c EmptyString]
           | w :: ws => String c w :: ws
           end
  end.

(** ToBoolean on a stored field or a header: a string, or no value;
    no value and the empty string are falsy. *)
Definition truthy (v : option string) : bool :=
  match v with
  | None => false
  | Some s => negb (String.eqb s EmptyString)
  end.

(** ToString on the same values; the handlers apply it to a header they
    have found to be a non-empty string. *)
Definition toString (v : option string) : string :=
  match v with
  | None => "undefined"
  | Some s => s
  end.

(** [s.startsWith(prefix)] *)
Fixpoint startsWith (prefix s : string) : bool :=
  match prefix, s with
  | EmptyString, _ => true
  | String _ _, EmptyString => false
  | String a p, String b r => Ascii.eqb a b && startsWith p r
  end.

(** [s.slice(n)]: what follows the first [n] code units. *)
Fixpoint slice (n : nat) (s : string) : string :=
  match n, s with
  | O, _ => s
  | S _, EmptyString => EmptyString
  | S m, String _ r => slice m r
  end.

End JsString.

(** ** The built-ins on ASCII text

    [toUpperCase], [toLowerCase], [trim] and [charAt] as they act on strings of
    ASCII characters, where they agree with JavaScript's; a code unit
    from 128 on is left as it is.  The environment of the examples and
    the [RegExp] fragment use them. *)

Module AsciiText.

Definition code (c : ascii) : nat := nat_of_ascii c.

(** WhiteSpace and LineTerminator code units below 128: TAB, LF, VT, FF,
    CR and SP. *)
Definition isWhiteSpace (c : ascii) : bool :=
  (Nat.leb 9 (code c) && Nat.leb (code c) 13) || Nat.eqb (code c) 32.

Definition isLower (c : ascii) : bool :=
  Nat.leb 97 (code c) && Nat.leb (code c) 122.

Definition isUpper (c : ascii) : bool :=
  Nat.leb 65 (code c) && Nat.leb (code c) 90.

Definition upperChar (c : ascii) : ascii :=
  if isLower c then ascii_of_nat (code c - 32) else c.

Definition lowerChar (c : ascii) : ascii :=
  if isUpper c then ascii_of_nat (code c + 32) else c.

Fixpoint mapChars (f : ascii -> ascii) (s : string) : string :=
  match s with
  | EmptyString => EmptyString
  | String c r => String (f c) (mapChars f r)
  end.

(** [s.toUpperCase()] and [s.toLowerCase()] *)
Definition toUpperCase : string -> string := mapChars upperChar.
Definition toLowerCase : string -> string := mapChars lowerChar.

Fixpoint trimStart (s : string) : string :=
  match s with
  | EmptyString => EmptyString
  | String c r => if isWhiteSpace c then trimStart r else s
  end.

Fixpoint trimEnd (s : string) : string :=
  match s with
  | EmptyString => EmptyString
  | String c r =>
      match trimEnd r with
      | EmptyString => if isWhiteSpace c then EmptyString else String c EmptyString
      | r' => String c r'
      end
  end.

(** [s.trim()] *)
Definition trim (s : string) : string := trimEnd (trimStart s).

(** [s.charAt(n)]: the one-unit string at index [n], or the empty string
    when [n] is out of range. *)
Fixpoint charAt (n : nat) (s : string) : string :=
  match s, n with
  | EmptyString, _ => EmptyString
  | String c _, O => String c EmptyString
  | String _ r, S m => charAt m r
  end.

End AsciiText.

(** ** [RegExp]: a fragment with an executable semantics

    The source and the subject are ASCII text.
    Supported syntax: literal characters, [.], identity escapes of syntax
    characters, the assertions [^] and [$], and the greedy quantifiers
    [*], [+], [?] on one atom.  Groups, classes, alternation, braces, lazy
    quantifiers and class escapes are reported as [Unsupported]. *)

Module RegExp.
Import JsString AsciiText.

Inductive atom := Lit (c : ascii) | Dot.
Inductive quant := Once | Star | Plus | Opt.
Inductive item := AssertStart | AssertEnd | Atom (a : atom) (q : quant).
Definition pattern := list item.

Inductive compiled :=
| Pattern (p : pattern)
| SyntaxError
| Unsupported.

Definition isQuantifierChar (c : ascii) : bool :=
  Ascii.eqb c "*" || Ascii.eqb c "+" || Ascii.eqb c "?".

(** SyntaxCharacter of the grammar: [^ $ \ . * + ? ( ) [ ] { } |] *)
Definition isSyntaxChar (c : ascii) : bool :=
  Ascii.eqb c "^" || Ascii.eqb c "$" || Ascii.eqb c "\" || Ascii.eqb c "."
  || isQuantifierChar c
  || Ascii.eqb c "(" || Ascii.eqb c ")" || Ascii.eqb c "[" || Ascii.eqb c "]"
  || Ascii.eqb c "{" || Ascii.eqb c "}" || Ascii.eqb c "|".

Definition quantOf (c : ascii) : quant :=
  if Ascii.eqb c "*" then Star else if Ascii.eqb c "+" then Plus else Opt.

(** Apply a quantifier character to the term parsed last ([acc] is in
    reverse order). *)
Definition quantify (c : ascii) (acc : pattern) : compiled :=
  match acc with
  | Atom a Once :: acc' => Pattern (Atom a (quantOf c) :: acc')
  | Atom _ _ :: _ => if Ascii.eqb c "?" then Unsupported else SyntaxError
  | _ => SyntaxError
  end.

Fixpoint parse (s : string) (acc : pattern) : compiled :=
  match s with
  | EmptyString => Pattern (rev acc)
  | String c r =>
      if Ascii.eqb c "^" then parse r (AssertStart :: acc)
      else if Ascii.eqb c "$" then parse r (AssertEnd :: acc)
      else if Ascii.eqb c "." then parse r (Atom Dot Once :: acc)
      else if isQuantifierChar c then
        match quantify c acc with
        | Pattern acc' => parse r acc'
        | e => e
        end
      else if Ascii.eqb c "\" then
        match r with
        | EmptyString => SyntaxError
        | String e r' =>
            if isSyntaxChar e || Ascii.eqb e "/"
            then parse r' (Atom (Lit e) Once :: acc)
            else Unsupported
        end
      else if isSyntaxChar c then Unsupported
      else parse r (Atom (Lit c) Once :: acc)
  end.

(** [new RegExp(source, "i")] *)
Definition compile (source : string) : compiled := parse source [].

Definition isLineTerminator (c : ascii) : bool :=
  Ascii.eqb c "010" || Ascii.eqb c "013".

(** With the [i] flag two code units match when their canonical (upper
    case) forms agree. *)
Definition accepts (a : atom) (c : ascii) : bool :=
  match a with
  | Lit l => Ascii.eqb (upperChar l) (upperChar c)
  | Dot => negb (isLineTerminator c)
  end.

Definition step (a : atom) (k : string -> bool) (s : string) : bool :=
  match s with
  | EmptyString => false
  | String c r => accepts a c && k r
  end.

(** Zero or more [a], then [k]. *)
Fixpoint many (a : atom) (k : string -> bool) (s : string) : bool :=
  k s ||
  match s with
  | EmptyString => false
  | String c r => accepts a c && many a k r
  end.

(** [matchHere p atStart s]: [p] matches a prefix of [s]; [atStart] tells
    whether [s] begins at index 0 of the input. *)
Fixpoint matchHere (p : pattern) (atStart : bool) (s : string) : bool :=
  match p with
  | [] => true
  | AssertStart :: p' => atStart && matchHere p' atStart s
  | AssertEnd :: p' => String.eqb s EmptyString && matchHere p' atStart s
  | Atom a Once :: p' => step a (matchHere p' false) s
  | Atom a Star :: p' => matchHere p' atStart s || step a (many a (matchHere p' false)) s
  | Atom a Plus :: p' => step a (many a (matchHere p' false)) s
  | Atom a Opt :: p' => matchHere p' atStart s || step a (matchHere p' false) s
  end.

Fixpoint searchFrom (p : pattern) (s : string) : bool :=
  matchHere p false s ||
  match s with
  | EmptyString => false
  | String _ r => searchFrom p r
  end.

(** [re.test(s)]: a match starting at some index of [s]. *)
Definition test (p : pattern) (s : string) : bool :=
  matchHere p true s ||
  match s with
  | EmptyString => false
  | String _ r => searchFrom p r
  end.

End RegExp.

(** ** Values of a request body

    A field of a JSON body whose schema type is [A]: absent (the handler
    reads [undefined]), [null], or a value. *)

Inductive field (A : Type) :=
| Undefined
| Null
| Val (a : A).
Arguments Undefined {A}.
Arguments Null {A}.
Arguments Val {A} a.

#[global] Instance field_eq_dec `{EqDecision A} : EqDecision (field A).
Proof. solve_decision. Defined.

(** What Mongoose stores for a field: the value, or none. *)
Definition stored {A} (v : field A) : option A :=
  match v with
  | Val a => Some a
  | _ => None
  end.

(** One field of an update: kept when the body does not carry it, set to
    the body's value, [null] included, when it does. *)
Definition pick {A} (new : field A) (old : option A) : option A :=
  match new with
  | Undefined => old
  | Null => None
  | Val a => Some a
  end.

Module Field.

(** ToBoolean: [undefined], [null] and the empty string are falsy. *)
Definition truthy (v : field string) : bool := JsString.truthy (stored v).

(** ToString, as string concatenation applies it. *)
Definition toString (v : field string) : string :=
  match v with
  | Undefined => "undefined"
  | Null => "null"
  | Val s => s
  end.

End Field.

(** ** Schemas

    One record per [mongoose.Schema]; the fields carry the source's names. *)

Definition ObjectId := nat.

(** A Number is an IEEE 754 double, kept as its sign, mantissa and
    exponent; the handlers store and return it and never compute on it. *)
Definition Number := spec_float.

#[global] Instance Number_eq_dec : EqDecision Number.
Proof. unfold Number. solve_decision. Defined.

Module User.
Record doc := mk
  { role : option string; name : option string;
    email : option string; password : option string }.
#[global] Instance doc_eq_dec : EqDecision doc.
Proof. solve_decision. Defined.
End User.

Module Faculty.
Record doc := mk
  { name : option string }.
#[global] Instance doc_eq_dec : EqDecision doc.
Proof. solve_decision. Defined.

(** What a request body may carry for a document of this schema. *)
Module Body.
Record t := mk
  { name : field string }.
End Body.

(** [new Faculty(body)] *)
Definition create (body : Body.t) : doc :=
  mk (stored (Body.name body)).

(** [$set] of the fields an update body carries. *)
Definition assign (body : Body.t) (d : doc) : doc :=
  mk (pick (Body.name body) (name d)).
End Faculty.

Module Grade.
Record doc := mk
  { year : option string; branch : option string; section : option string;
    shift : option string; capacity : option Number }.
#[global] Instance doc_eq_dec : EqDecision doc.
Proof. solve_decision. Defined.

(** What a request body may carry for a document of this schema. *)
Module Body.
Record t := mk
  { year : field string; branch : field string; section : field string;
    shift : field string; capacity : field Number }.
End Body.

(** [new Grade(body)] *)
Definition create (body : Body.t) : doc :=
  mk (stored (Body.year body)) (stored (Body.branch body))
     (stored (Body.section body)) (stored (Body.shift body))
     (stored (Body.capacity body)).

(** [$set] of the fields an update body carries. *)
Definition assign (body : Body.t) (d : doc) : doc :=
  mk (pick (Body.year body) (year d))
     (pick (Body.branch body) (branch d))
     (pick (Body.section body) (section d))
     (pick (Body.shift body) (shift d))
     (pick (Body.capacity body) (capacity d)).
End Grade.

Module Classroom.
Record doc := mk
  { name : option string }.
#[global] Instance doc_eq_dec : EqDecision doc.
Proof. solve_decision. Defined.

(** What a request body may carry for a document of this schema. *)
Module Body.
Record t := mk
  { name : field string }.
End Body.

(** [new Classroom(body)] *)
Definition create (body : Body.t) : doc :=
  mk (stored (Body.name body)).

(** [$set] of the fields an update body carries. *)
Definition assign (body : Body.t) (d : doc) : doc :=
  mk (pick (Body.name body) (name d)).
End Classroom.

Module Lab.
Record doc := mk
  { name : option string }.
#[global] Instance doc_eq_dec : EqDecision doc.
Proof. solve_decision. Defined.

(** What a request body may carry for a document of this schema. *)
Module Body.
Record t := mk
  { name : field string }.
End Body.

(** [new Lab(body)] *)
Definition create (body : Body.t) : doc :=
  mk (stored (Body.name body)).

(** [$set] of the fields an update body carries. *)
Definition assign (body : Body.t) (d : doc) : doc :=
  mk (pick (Body.name body) (name d)).
End Lab.

Module Subject.
Record doc := mk
  { grade : option string; subject : option string; type : option string;
    faculty : option string }.
#[global] Instance doc_eq_dec : EqDecision doc.
Proof. solve_decision. Defined.

(** What a request body may carry for a document of this schema. *)
Module Body.
Record t := mk
  { grade : field string; subject : field string; type : field string;
    faculty : field string }.
End Body.

(** [new Subject(body)] *)
Definition create (body : Body.t) : doc :=
  mk (stored (Body.grade body)) (stored (Body.subject body))
     (stored (Body.type body)) (stored (Body.faculty body)).

(** [$set] of the fields an update body carries. *)
Definition assign (body : Body.t) (d : doc) : doc :=
  mk (pick (Body.grade body) (grade d))
     (pick (Body.subject body) (subject d))
     (pick (Body.type body) (type d))
     (pick (Body.faculty body) (faculty d)).
End Subject.

Module Schedule.
Record doc := mk
  { grade : option string; subject : option string;
    faculty : option string; classroom : option string;
    day : option string; time : option string }.
#[global] Instance doc_eq_dec : EqDecision doc.
Proof. solve_decision. Defined.

(** [$set: {faculty: f}] *)
Definition setFaculty (f : option string) (d : doc) : doc :=
  mk (grade d) (subject d) f (classroom d) (day d) (time d).

(** What a request body may carry for a document of this schema. *)
Module Body.
Record t := mk
  { grade : field string; subject : field string; faculty : field string;
    classroom : field string; day : field string; time : field string }.
End Body.

(** [new Schedule(body)] *)
Definition create (body : Body.t) : doc :=
  mk (stored (Body.grade body)) (stored (Body.subject body))
     (stored (Body.faculty body)) (stored (Body.classroom body))
     (stored (Body.day body)) (stored (Body.time body)).

(** [$set] of the fields an update body carries. *)
Definition assign (body : Body.t) (d : doc) : doc :=
  mk (pick (Body.grade body) (grade d))
     (pick (Body.subject body) (subject d))
     (pick (Body.faculty body) (faculty d))
     (pick (Body.classroom body) (classroom d))
     (pick (Body.day body) (day d))
     (pick (Body.time body) (time d)).
End Schedule.

Module Swap.
Record doc := mk
  { fromFaculty : option string; toFaculty : option string;
    grade : option string; day : option string; time : option string;
    status : option string }.
#[global] Instance doc_eq_dec : EqDecision doc.
Proof. solve_decision. Defined.

(** [$set: {status: s}] *)
Definition setStatus (s : option string) (d : doc) : doc :=
  mk (fromFaculty d) (toFaculty d) (grade d) (day d) (time d) s.

(** What a request body may carry for a document of this schema. *)
Module Body.
Record t := mk
  { fromFaculty : field string; toFaculty : field string;
    grade : field string; day : field string; time : field string;
    status : field string }.
End Body.

(** [new Swap(body)]: the schema default fills [status] when the body
    leaves it undefined, and only then; a [null] is kept. *)
Definition create (body : Body.t) : doc :=
  mk (stored (Body.fromFaculty body)) (stored (Body.toFaculty body))
     (stored (Body.grade body)) (stored (Body.day body)) (stored (Body.time body))
     match Body.status body with
     | Undefined => Some "pending"
     | Null => None
     | Val s => Some s
     end.

(** [$set] of the fields an update body carries. *)
Definition assign (body : Body.t) (d : doc) : doc :=
  mk (pick (Body.fromFaculty body) (fromFaculty d))
     (pick (Body.toFaculty body) (toFaculty d))
     (pick (Body.grade body) (grade d))
     (pick (Body.day body) (day d))
     (pick (Body.time body) (time d))
     (pick (Body.status body) (status d)).
End Swap.

Module Leave.
Record doc := mk
  { faculty : option string; from : option string; to : option string;
    reason : option string; status : option string }.
#[global] Instance doc_eq_dec : EqDecision doc.
Proof. solve_decision. Defined.

(** What a request body may carry for a document of this schema. *)
Module Body.
Record t := mk
  { faculty : field string; from : field string; to : field string;
    reason : field string; status : field string }.
End Body.

(** [new Leave(body)]: the schema default fills [status] when the body
    leaves it undefined, and only then; a [null] is kept. *)
Definition create (body : Body.t) : doc :=
  mk (stored (Body.faculty body)) (stored (Body.from body))
     (stored (Body.to body)) (stored (Body.reason body))
     match Body.status body with
     | Undefined => Some "pending"
     | Null => None
     | Val s => Some s
     end.

(** [$set] of the fields an update body carries. *)
Definition assign (body : Body.t) (d : doc) : doc :=
  mk (pick (Body.faculty body) (faculty d))
     (pick (Body.from body) (from d))
     (pick (Body.to body) (to d))
     (pick (Body.reason body) (reason d))
     (pick (Body.status body) (status d)).
End Leave.

Module Feedback.
Record doc := mk
  { student : option string; grade : option string;
    message : option string; timestamp : option string }.
#[global] Instance doc_eq_dec : EqDecision doc.
Proof. solve_decision. Defined.

(** What a request body may carry for a document of this schema. *)
Module Body.
Record t := mk
  { student : field string; grade : field string; message : field string;
    timestamp : field string }.
End Body.

(** [new Feedback(body)] *)
Definition create (body : Body.t) : doc :=
  mk (stored (Body.student body)) (stored (Body.grade body))
     (stored (Body.message body)) (stored (Body.timestamp body)).

(** [$set] of the fields an update body carries. *)
Definition assign (body : Body.t) (d : doc) : doc :=
  mk (pick (Body.student body) (student d))
     (pick (Body.grade body) (grade d))
     (pick (Body.message body) (message d))
     (pick (Body.timestamp body) (timestamp d)).
End Feedback.

(** ** Collections and the Mongoose operations the handlers call *)

Module Mongoose.

Abbreviation collection A := (list (ObjectId * A)).

Section Ops.
Context {A : Type}.
Implicit Types (c : collection A) (P : A -> Prop).

Definition hasId (id : ObjectId) (e : ObjectId * A) : Prop := e.1 = id.

#[global] Instance hasId_dec id e : Decision (hasId id e).
Proof. unfold hasId. apply _. Defined.

(** [Model.findOne(filter)]: the first document, in natural order, the
    filter selects. *)
Definition findOne P `{!forall d, Decision (P d)} c : option (ObjectId * A) :=
  snd <$> list_find (fun e => P e.2) c.

(** [Model.findById(id)] *)
Definition findById (id : ObjectId) c : option (ObjectId * A) :=
  snd <$> list_find (hasId id) c.

(** [Model.findByIdAndDelete(id)]: the removed document, or [null]. *)
Definition findByIdAndDelete (id : ObjectId) c
  : option (ObjectId * A) * collection A :=
  match list_find (hasId id) c with
  | Some (i, e) => (Some e, delete i c)
  | None => (None, c)
  end.

(** [Model.findByIdAndUpdate(id, {$set}, {new:true})]: the document
    after the update, or [null]. *)
Definition findByIdAndUpdate (id : ObjectId) (upd : A -> A) c
  : option (ObjectId * A) * collection A :=
  match list_find (hasId id) c with
  | Some (i, e) => let e' := (e.1, upd e.2) in (Some e', <[i := e']> c)
  | None => (None, c)
  end.

(** [Model.findOneAndUpdate(filter, {$set})]: updates the first
    document the filter selects, if any; the handlers drop its result. *)
Definition findOneAndUpdate P `{!forall d, Decision (P d)} (upd : A -> A) c
  : collection A :=
  match list_find (fun e => P e.2) c with
  | Some (i, e) => <[i := (e.1, upd e.2)]> c
  | None => c
  end.

(** [Model.deleteMany(filter)] *)
Definition deleteMany P `{!forall d, Decision (P d)} c : collection A :=
  filter (fun e => ~ P e.2) c.

(** Fresh ids for a batch: [next], [next+1], ... *)
Definition withIds (next : ObjectId) (docs : list A) : collection A :=
  zip (seq next (length docs)) docs.

(** [Model.insertMany(docs)] *)
Definition insertMany (next : ObjectId) (docs : list A) c : collection A :=
  (c ++ withIds next docs)%list.

End Ops.
End Mongoose.

Import Mongoose.

(** ** The store *)

Record Store := mkStore
  { users : collection User.doc;
    faculties : collection Faculty.doc;
    grades : collection Grade.doc;
    classrooms : collection Classroom.doc;
    labs : collection Lab.doc;
    subjects : collection Subject.doc;
    schedules : collection Schedule.doc;
    swaps : collection Swap.doc;
    leaves : collection Leave.doc;
    feedbacks : collection Feedback.doc;
    nextId : ObjectId }.

Definition emptyStore : Store := mkStore [] [] [] [] [] [] [] [] [] [] 0.

Definition setUsers (v : collection User.doc) (s : Store) : Store :=
  mkStore v (faculties s) (grades s) (classrooms s) (labs s) (subjects s)
          (schedules s) (swaps s) (leaves s) (feedbacks s) (nextId s).
Definition setFaculties (v : collection Faculty.doc) (s : Store) : Store :=
  mkStore (users s) v (grades s) (classrooms s) (labs s) (subjects s)
          (schedules s) (swaps s) (leaves s) (feedbacks s) (nextId s).
Definition setGrades (v : collection Grade.doc) (s : Store) : Store :=
  mkStore (users s) (faculties s) v (classrooms s) (labs s) (subjects s)
          (schedules s) (swaps s) (leaves s) (feedbacks s) (nextId s).
Definition setClassrooms (v : collection Classroom.doc) (s : Store) : Store :=
  mkStore (users s) (faculties s) (grades s) v (labs s) (subjects s)
          (schedules s) (swaps s) (leaves s) (feedbacks s) (nextId s).
Definition setLabs (v : collection Lab.doc) (s : Store) : Store :=
  mkStore (users s) (faculties s) (grades s) (classrooms s) v (subjects s)
          (schedules s) (swaps s) (leaves s) (feedbacks s) (nextId s).
Definition setSubjects (v : collection Subject.doc) (s : Store) : Store :=
  mkStore (users s) (faculties s) (grades s) (classrooms s) (labs s) v
          (schedules s) (swaps s) (leaves s) (feedbacks s) (nextId s).
Definition setSchedules (v : collection Schedule.doc) (s : Store) : Store :=
  mkStore (users s) (faculties s) (grades s) (classrooms s) (labs s) (subjects s)
          v (swaps s) (leaves s) (feedbacks s) (nextId s).
Definition setSwaps (v : collection Swap.doc) (s : Store) : Store :=
  mkStore (users s) (faculties s) (grades s) (classrooms s) (labs s) (subjects s)
          (schedules s) v (leaves s) (feedbacks s) (nextId s).
Definition setLeaves (v : collection Leave.doc) (s : Store) : Store :=
  mkStore (users s) (faculties s) (grades s) (classrooms s) (labs s) (subjects s)
          (schedules s) (swaps s) v (feedbacks s) (nextId s).
Definition setFeedbacks (v : collection Feedback.doc) (s : Store) : Store :=
  mkStore (users s) (faculties s) (grades s) (classrooms s) (labs s) (subjects s)
          (schedules s) (swaps s) (leaves s) v (nextId s).
Definition setNextId (n : ObjectId) (s : Store) : Store :=
  mkStore (users s) (faculties s) (grades s) (classrooms s) (labs s) (subjects s)
          (schedules s) (swaps s) (leaves s) (feedbacks s) n.

(** Every stored id was drawn from the counter. *)
Definition idsBelow {A} (n : ObjectId) (c : collection A) : Prop :=
  Forall (fun e => e.1 < n) c.

(** ** What a handler does with a request *)

Inductive jsError :=
| TypeError            (* a property read on [null] or [undefined] *)
| RegExpSyntaxError    (* [new RegExp] on an ill-formed source *)
| BcryptIllegalArguments (* bcryptjs given a non-string *)
| DuplicateKey         (* E11000 from the unique index on [User.email] *)
| CastError.           (* Mongoose given an id that is no ObjectId *)

(** [Json status body] is [res.status(status).json(body)] ([res.json] has
    status 200).  [Rejected e]: the async handler throws [e] outside any
    [try]; no response is written. *)
Inductive outcome (A : Type) :=
| Json (status : nat) (body : A)
| Rejected (e : jsError).
Arguments Json {A} status body.
Arguments Rejected {A} e.

(** A response body that is either [{message: m}] or a payload. *)
Inductive reply (A : Type) :=
| Message (m : string)
| Data (a : A).
Arguments Message {A} m.
Arguments Data {A} a.

Definition responded {A} (o : outcome A) : Prop :=
  match o with Json _ _ => True | _ => False end.

(** ** The libraries and the built-ins *)

Module Jwt.
Record payload := mk
  { id : option ObjectId; role : option string;
    name : option string; email : option string }.
End Jwt.

Class Env := mkEnv
  { (** [process.env.JWT_SECRET || "smartclass_secret_key"] *)
    SECRET : string;
    (** [bcrypt.hashSync(s, 8)] *)
    hashSync : string -> string;
    (** [bcrypt.compareSync(s, hash)] *)
    compareSync : string -> string -> bool;
    (** [jwt.sign(payload, secret, {expiresIn})] *)
    sign : Jwt.payload -> string -> string -> string;
    (** [jwt.verify(token, secret)]: the decoded payload, or an error *)
    verify : string -> string -> option Jwt.payload;
    (** [s.toUpperCase()] *)
    toUpperCase : string -> string;
    (** [s.toLowerCase()] *)
    toLowerCase : string -> string;
    (** [s.trim()] *)
    trim : string -> string;
    (** [s.charAt(n)] *)
    charAt : nat -> string -> string;
    (** [new RegExp(source, "i")] and the selection [$regex] makes with
        it: the names it selects, or [None] when the constructor throws
        a SyntaxError *)
    regexp : string -> option (string -> bool);
    (** Mongoose's cast of [req.params.id]: the ObjectId the string
        stands for, or [None] when it stands for none *)
    castObjectId : string -> option ObjectId }.

(** A route with an [:id]: the query casts the parameter first, and a
    string that is no ObjectId makes it throw. *)
Definition withId `{Env} {A} (param : string)
    (handler : ObjectId -> Store -> outcome A * Store) (st : Store)
  : outcome A * Store :=
  match castObjectId param with
  | Some id => handler id st
  | None => (Rejected CastError, st)
  end.

(** ** Handlers the two variants share word for word *)

(** [POST /schedules]; the grade and the entries are given as stored, a
    [null] and an absent field both being no value to the delete and
    the insert.
    <<
    await Schedule.deleteMany({grade:req.body.grade});
    const saved=await Schedule.insertMany(req.body.schedules);
    res.json(saved);
    >> *)
Definition postSchedules (grade : option string) (body : list Schedule.doc)
    (st : Store) : outcome (collection Schedule.doc) * Store :=
  let kept := deleteMany (fun d => Schedule.grade d = grade) (schedules st) in
  let saved := withIds (nextId st) body in
  (Json 200 saved,
   setNextId (nextId st + length body) (setSchedules (insertMany (nextId st) body kept) st)).

(** [DELETE /schedules] *)
Definition clearSchedules (st : Store) : outcome (reply unit) * Store :=
  (Json 200 (Message "All schedules deleted"),
   setSchedules (deleteMany (fun _ => True) (schedules st)) st).


(** [POST /swaps]: [res.json(await new Swap(req.body).save())] *)
Definition postSwaps (body : Swap.Body.t) (st : Store)
  : outcome (ObjectId * Swap.doc) * Store :=
  let e := (nextId st, Swap.create body) in
  (Json 200 e, setNextId (S (nextId st)) (setSwaps (swaps st ++ [e])%list st)).

(** The filter of the approval's [Schedule.findOneAndUpdate]:
    [{grade:swap.grade,day:swap.day,time:swap.time,faculty:swap.fromFaculty}] *)
Definition slotOf (swap : Swap.doc) (d : Schedule.doc) : Prop :=
  Schedule.grade d = Swap.grade swap /\ Schedule.day d = Swap.day swap /\
  Schedule.time d = Swap.time swap /\ Schedule.faculty d = Swap.fromFaculty swap.

#[global] Instance slotOf_dec swap d : Decision (slotOf swap d).
Proof. unfold slotOf. apply _. Defined.

(** [PUT /swaps/:id/approve]
    <<
    const swap=await Swap.findByIdAndUpdate(req.params.id,{status:"approved"},{new:true});
    if(swap.toFaculty){
      await Schedule.findOneAndUpdate({...},{faculty:swap.toFaculty});
    }
    res.json(swap);
    >> *)
Definition approve (id : ObjectId) (st : Store)
  : outcome (ObjectId * Swap.doc) * Store :=
  let '(found, swaps') :=
    findByIdAndUpdate id (Swap.setStatus (Some "approved")) (swaps st) in
  let st1 := setSwaps swaps' st in
  match found with
  | None => (Rejected TypeError, st1)
  | Some swap =>
      if JsString.truthy (Swap.toFaculty swap.2) then
        (Json 200 swap,
         setSchedules
           (findOneAndUpdate (slotOf swap.2)
              (Schedule.setFaculty (Swap.toFaculty swap.2)) (schedules st1)) st1)
      else (Json 200 swap, st1)
  end.

(** [PUT /swaps/:id/reject] *)
Definition reject (id : ObjectId) (st : Store)
  : outcome (option (ObjectId * Swap.doc)) * Store :=
  let '(found, swaps') :=
    findByIdAndUpdate id (Swap.setStatus (Some "rejected")) (swaps st) in
  (Json 200 found, setSwaps swaps' st).


(** ** Delete by id, one route per domain collection

    Every such route is [res.json(await Model.findByIdAndDelete(req.params.id))].
    [deleteById] is the handler once the parameter is cast, [deleteRequest]
    the handler. *)

Inductive model :=
| MFaculty | MGrade | MClassroom | MLab | MSubject
| MSchedule | MSwap | MLeave | MFeedback.

Definition docOf (m : model) : Type :=
  match m with
  | MFaculty => Faculty.doc | MGrade => Grade.doc | MClassroom => Classroom.doc
  | MLab => Lab.doc | MSubject => Subject.doc | MSchedule => Schedule.doc
  | MSwap => Swap.doc | MLeave => Leave.doc | MFeedback => Feedback.doc
  end.

Definition documents (m : model) : Store -> collection (docOf m) :=
  match m with
  | MFaculty => faculties | MGrade => grades | MClassroom => classrooms
  | MLab => labs | MSubject => subjects | MSchedule => schedules
  | MSwap => swaps | MLeave => leaves | MFeedback => feedbacks
  end.

Definition setDocuments (m : model) : collection (docOf m) -> Store -> Store :=
  match m with
  | MFaculty => setFaculties | MGrade => setGrades | MClassroom => setClassrooms
  | MLab => setLabs | MSubject => setSubjects | MSchedule => setSchedules
  | MSwap => setSwaps | MLeave => setLeaves | MFeedback => setFeedbacks
  end.

Definition deleteById (m : model) (id : ObjectId) (st : Store)
  : outcome (option (ObjectId * docOf m)) * Store :=
  let '(found, rest) := findByIdAndDelete id (documents m st) in
  (Json 200 found, setDocuments m rest st).

Definition deleteRequest `{Env} (m : model) (param : string) (st : Store)
  : outcome (option (ObjectId * docOf m)) * Store :=
  withId param (deleteById m) st.

(** [PUT /swaps/:id/approve] and [PUT /swaps/:id/reject] from the
    parameter on. *)
Definition approveRequest `{Env} (param : string) (st : Store)
  : outcome (ObjectId * Swap.doc) * Store :=
  withId param approve st.

Definition rejectRequest `{Env} (param : string) (st : Store)
  : outcome (option (ObjectId * Swap.doc)) * Store :=
  withId param reject st.

#[global] Instance model_eq_dec : EqDecision model.
Proof. solve_decision. Defined.

(** ** List, create and update, one route per domain collection *)

(** [GET /<entity>]: [res.json(await Model.find())] *)
Definition getAll (m : model) (st : Store)
  : outcome (collection (docOf m)) * Store :=
  (Json 200 (documents m st), st).

(** The body of a create or an update for each collection. *)
Definition bodyOf (m : model) : Type :=
  match m with
  | MFaculty => Faculty.Body.t | MGrade => Grade.Body.t
  | MClassroom => Classroom.Body.t | MLab => Lab.Body.t
  | MSubject => Subject.Body.t | MSchedule => Schedule.Body.t
  | MSwap => Swap.Body.t | MLeave => Leave.Body.t | MFeedback => Feedback.Body.t
  end.

(** [new Model(req.body)]: the body with the defaults of its schema. *)
Definition construct (m : model) : bodyOf m -> docOf m :=
  match m with
  | MFaculty => Faculty.create | MGrade => Grade.create
  | MClassroom => Classroom.create | MLab => Lab.create
  | MSubject => Subject.create | MSchedule => Schedule.create
  | MSwap => Swap.create | MLeave => Leave.create | MFeedback => Feedback.create
  end.

(** [POST /<entity>]: [res.json(await new Model(req.body).save())];
    the route tables of the variants say for which collections it is
    registered, as for the update and the delete by id. *)
Definition postDocument (m : model) (body : bodyOf m) (st : Store)
  : outcome (ObjectId * docOf m) * Store :=
  let e := (nextId st, construct m body) in
  (Json 200 e,
   setNextId (S (nextId st)) (setDocuments m (documents m st ++ [e])%list st)).

(** [$set] of the fields a request body carries. *)
Definition assign (m : model) : bodyOf m -> docOf m -> docOf m :=
  match m with
  | MFaculty => Faculty.assign | MGrade => Grade.assign
  | MClassroom => Classroom.assign | MLab => Lab.assign
  | MSubject => Subject.assign | MSchedule => Schedule.assign
  | MSwap => Swap.assign | MLeave => Leave.assign | MFeedback => Feedback.assign
  end.

(** [PUT /<entity>/:id]:
    [res.json(await Model.findByIdAndUpdate(req.params.id, req.body, {new:true}))],
    once the parameter is cast, and from the parameter on. *)
Definition putDocument (m : model) (id : ObjectId) (body : bodyOf m) (st : Store)
  : outcome (option (ObjectId * docOf m)) * Store :=
  let '(found, rest) := findByIdAndUpdate id (assign m body) (documents m st) in
  (Json 200 found, setDocuments m rest st).

Definition putRequest `{Env} (m : model) (param : string) (body : bodyOf m)
    (st : Store) : outcome (option (ObjectId * docOf m)) * Store :=
  withId param (fun id => putDocument m id body) st.

(** ** Authentication *)

Module Auth.
Import JsString.

(** The request body of [/signup] and [/login]. *)
Record credentials := mkCredentials
  { role : field string; name : field string;
    email : field string; password : field string }.

(** The body of a successful login. *)
Record session := mkSession
  { message : option string; token : string;
    sessionRole : option string; sessionName : option string }.

(** [faculty.name.trim().charAt(0).toUpperCase()+"1234"] *)
Definition correctPassword `{Env} (facultyName : string) : string :=
  toUpperCase (charAt 0 (trim facultyName)) ++ "1234".

(** The source of [new RegExp("^"+email+"$","i")]. *)
Definition nameSource (email : field string) : string :=
  "^" ++ Field.toString email ++ "$".

(** [{name:{$regex: re}}]: a document without a string [name] is not
    selected. *)
Definition nameSelected (test : string -> bool) (d : Faculty.doc) : Prop :=
  match Faculty.name d with
  | Some n => test n = true
  | None => False
  end.

#[global] Instance nameSelected_dec test d : Decision (nameSelected test d).
Proof. unfold nameSelected. destruct (Faculty.name d); apply _. Defined.

(** [{email, role}] on the User collection. *)
Definition isUser (email role : option string) (u : User.doc) : Prop :=
  User.email u = email /\ User.role u = role.

#[global] Instance isUser_dec e r u : Decision (isUser e r u).
Proof. unfold isUser. apply _. Defined.

Definition hasEmail (email : option string) (u : User.doc) : Prop :=
  User.email u = email.

#[global] Instance hasEmail_dec e u : Decision (hasEmail e u).
Proof. unfold hasEmail. apply _. Defined.

(** [await new User(u).save()] *)
Definition saveUser (u : User.doc) (st : Store) : Store :=
  setNextId (S (nextId st)) (setUsers (users st ++ [(nextId st, u)])%list st).

End Auth.

(** ** Variant 1 *)

Module V1.
Import JsString Auth.

Section WithEnv.
Context `{Env}.

(** [verifyToken]: the response that ends the request, or the decoded
    payload handed to the next handler as [req.user]. *)
Definition verifyToken (authorization : option string)
  : outcome (reply unit) + Jwt.payload :=
  if negb (truthy authorization) then inl (Json 401 (Message "No token"))
  else
    match split " " (toString authorization) !! 1 with
    | None => inl (Json 401 (Message "Invalid token"))
    | Some token =>
        match verify token SECRET with
        | None => inl (Json 401 (Message "Invalid token"))
        | Some decoded => inr decoded
        end
    end.

(** [POST /signup], behind [verifyToken].  [bcrypt.hashSync] throws on a
    password that is no string, and [user.save()] is refused by the
    unique index on [email] when a stored user has the same email (two
    emails without a value collide as well). *)
Definition signup (authorization : option string) (body : credentials)
    (st : Store) : outcome (reply unit) * Store :=
  match verifyToken authorization with
  | inl response => (response, st)
  | inr user =>
      if decide (Jwt.role user <> Some "admin")
      then (Json 403 (Message "Only admin allowed"), st)
      else
        match password body with
        | Val pw =>
            let hashed := hashSync pw in
            let u := User.mk (stored (role body)) (stored (name body))
                             (stored (email body)) (Some hashed) in
            match findOne (hasEmail (stored (email body))) (users st) with
            | Some _ => (Rejected DuplicateKey, st)
            | None => (Json 200 (Message "User created"), saveUser u st)
            end
        | _ => (Rejected BcryptIllegalArguments, st)
        end
  end.

(** [POST /login] *)
Definition login (body : credentials) (st : Store)
  : outcome (reply session) * Store :=
  if decide (role body = Val "teacher") then
    match regexp (nameSource (email body)) with
    | None => (Rejected RegExpSyntaxError, st)
    | Some test =>
        match findOne (nameSelected test) (faculties st) with
        | None => (Json 400 (Message "Faculty not found"), st)
        | Some faculty =>
            match Faculty.name faculty.2 with
            | None => (Rejected TypeError, st)
            | Some n =>
                if decide (password body <> Val (correctPassword n))
                then (Json 400 (Message "Invalid password"), st)
                else
                  let token :=
                    sign (Jwt.mk None (Some "teacher") (Some n) None) SECRET "2h" in
                  (Json 200 (Data (mkSession None token (Some "teacher") (Some n))), st)
            end
        end
    end
  else
    match findOne (isUser (stored (email body)) (stored (role body))) (users st) with
    | None => (Json 400 (Message "Invalid credentials"), st)
    | Some user =>
        match password body, User.password user.2 with
        | Val pw, Some hash =>
            if negb (compareSync pw hash)
            then (Json 400 (Message "Invalid credentials"), st)
            else
              let token :=
                sign (Jwt.mk (Some user.1) (User.role user.2) (User.name user.2) None)
                     SECRET "2h" in
              (Json 200 (Data (mkSession None token (User.role user.2) (User.name user.2))), st)
        | _, _ => (Rejected BcryptIllegalArguments, st)
        end
    end.

End WithEnv.

(** The delete-by-id routes this variant registers. *)
Definition deleteRoutes : list model := [MFaculty; MSwap; MLeave].

(** The collections with a [GET], a [POST] and a [PUT /:id] route. *)
Definition getRoutes : list model :=
  [MFaculty; MGrade; MClassroom; MLab; MSubject; MSchedule; MSwap; MLeave; MFeedback].
Definition postRoutes : list model :=
  [MFaculty; MGrade; MClassroom; MLab; MSubject; MSwap; MLeave; MFeedback].
Definition putRoutes : list model := [MLeave].

(** The requests of the route table. *)
Inductive request :=
| Signup (authorization : option string) (body : credentials)
| Login (body : credentials)
| Get (m : model)
| Post (m : model) (body : bodyOf m)
| Put (m : model) (id : string) (body : bodyOf m)
| Delete (m : model) (id : string)
| PostSchedules (grade : option string) (body : list Schedule.doc)
| ClearSchedules
| Approve (id : string)
| Reject (id : string).

Section Router.
Context `{Env}.

(** The store after a request; a request no route is registered for is
    answered by Express itself and writes nothing. *)
Definition step (r : request) (st : Store) : Store :=
  match r with
  | Signup authorization body => (signup authorization body st).2
  | Login body => (login body st).2
  | Get m => st
  | Post m body =>
      if bool_decide (m ∈ postRoutes) then (postDocument m body st).2 else st
  | Put m id body =>
      if bool_decide (m ∈ putRoutes) then (putRequest m id body st).2 else st
  | Delete m id =>
      if bool_decide (m ∈ deleteRoutes) then (deleteRequest m id st).2 else st
  | PostSchedules grade body => (postSchedules grade body st).2
  | ClearSchedules => (clearSchedules st).2
  | Approve id => (approveRequest id st).2
  | Reject id => (rejectRequest id st).2
  end.

End Router.

End V1.

(** ** Variant 2 *)

Module V2.
Import JsString Auth.

Section WithEnv.
Context `{Env}.

(** [seedDefaultAccounts] *)
Definition seedDefaultAccounts (st : Store) : Store :=
  let demoStudentEmail := "student@smartclass.com" in
  let demoAdminEmail := "admin@smartclass.com" in
  let st1 :=
    match findOne (hasEmail (Some demoStudentEmail)) (users st) with
    | Some _ => st
    | None =>
        saveUser (User.mk (Some "student") (Some "Demo Student")
                          (Some demoStudentEmail) (Some (hashSync "Vignan"))) st
    end in
  match findOne (hasEmail (Some demoAdminEmail)) (users st1) with
  | Some _ => st1
  | None =>
      saveUser (User.mk (Some "admin") (Some "Demo Admin")
                        (Some demoAdminEmail) (Some (hashSync "Vignanfaculty"))) st1
  end.

(** [POST /signup]: past the required-fields check the four fields are
    non-empty strings. *)
Definition signup (body : credentials) (st : Store)
  : outcome (reply unit) * Store :=
  if negb (Field.truthy (role body)) || negb (Field.truthy (name body))
     || negb (Field.truthy (email body)) || negb (Field.truthy (password body))
  then (Json 400 (Message "All fields required"), st)
  else
    let normalizedEmail := toLowerCase (Field.toString (email body)) in
    match findOne (hasEmail (Some normalizedEmail)) (users st) with
    | Some _ => (Json 400 (Message "User already exists"), st)
    | None =>
        let hashed := hashSync (Field.toString (password body)) in
        (Json 200 (Message "Signup successful"),
         saveUser (User.mk (stored (role body)) (stored (name body))
                           (Some normalizedEmail) (Some hashed)) st)
    end.

(** [POST /login]; whatever the body of the [try] throws becomes a 500. *)
Definition login (body : credentials) (st : Store)
  : outcome (reply session) * Store :=
  if negb (Field.truthy (role body)) || negb (Field.truthy (email body))
     || negb (Field.truthy (password body))
  then (Json 400 (Message "Missing required fields"), st)
  else if decide (role body = Val "teacher") then
    match regexp (nameSource (email body)) with
    | None => (Json 500 (Message "Server error"), st)
    | Some test =>
        match findOne (nameSelected test) (faculties st) with
        | None => (Json 400 (Message "Faculty not found"), st)
        | Some faculty =>
            match Faculty.name faculty.2 with
            | None => (Json 500 (Message "Server error"), st)
            | Some n =>
                if decide (password body <> Val (correctPassword n))
                then (Json 400 (Message "Invalid password"), st)
                else
                  let token :=
                    sign (Jwt.mk None (Some "teacher") (Some n) None) SECRET "1h" in
                  (Json 200 (Data (mkSession (Some "Faculty login successful") token
                                             (Some "teacher") (Some n))), st)
            end
        end
    end
  else
    match findOne (isUser (stored (email body)) (stored (role body))) (users st) with
    | None => (Json 400 (Message "Invalid credentials"), st)
    | Some user =>
        match password body, User.password user.2 with
        | Val pw, Some hash =>
            if negb (compareSync pw hash)
            then (Json 400 (Message "Invalid credentials"), st)
            else
              let token :=
                sign (Jwt.mk (Some user.1) (User.role user.2) None (User.email user.2))
                     SECRET "1h" in
              (Json 200 (Data (mkSession (Some "Login successful") token
                                         (User.role user.2) (User.name user.2))), st)
        | _, _ => (Json 500 (Message "Server error"), st)
        end
    end.

(** [verifyToken]; no route of this variant is registered behind it. *)
Definition verifyToken (authorization : option string)
  : outcome (reply unit) + Jwt.payload :=
  let authHeader := if truthy authorization then toString authorization else "" in
  let token :=
    if startsWith "Bearer " authHeader then Some (slice 7 authHeader) else None in
  if negb (truthy token) then inl (Json 401 (Message "No token provided"))
  else
    match verify (toString token) SECRET with
    | None => inl (Json 401 (Message "Failed to authenticate token"))
    | Some decoded => inr decoded
    end.

End WithEnv.

(** The delete-by-id routes this variant registers. *)
Definition deleteRoutes : list model :=
  [MFaculty; MGrade; MClassroom; MLab; MSubject; MSchedule; MSwap; MFeedback].

(** The collections with a [GET], a [POST] and a [PUT /:id] route. *)
Definition getRoutes : list model :=
  [MFaculty; MGrade; MClassroom; MLab; MSubject; MSchedule; MSwap; MFeedback].
Definition postRoutes : list model :=
  [MFaculty; MGrade; MClassroom; MLab; MSubject; MSwap; MFeedback].
Definition putRoutes : list model := [MFaculty; MGrade; MSubject; MSchedule].

(** The requests of the route table. *)
Inductive request :=
| Signup (body : credentials)
| Login (body : credentials)
| Get (m : model)
| Post (m : model) (body : bodyOf m)
| Put (m : model) (id : string) (body : bodyOf m)
| Delete (m : model) (id : string)
| PostSchedules (grade : option string) (body : list Schedule.doc)
| ClearSchedules
| Approve (id : string)
| Reject (id : string).

Section Router.
Context `{Env}.

(** The store after a request; a request no route is registered for is
    answered by Express itself and writes nothing. *)
Definition step (r : request) (st : Store) : Store :=
  match r with
  | Signup body => (signup body st).2
  | Login body => (login body st).2
  | Get m => st
  | Post m body =>
      if bool_decide (m ∈ postRoutes) then (postDocument m body st).2 else st
  | Put m id body =>
      if bool_decide (m ∈ putRoutes) then (putRequest m id body st).2 else st
  | Delete m id =>
      if bool_decide (m ∈ deleteRoutes) then (deleteRequest m id st).2 else st
  | PostSchedules grade body => (postSchedules grade body st).2
  | ClearSchedules => (clearSchedules st).2
  | Approve id => (approveRequest id st).2
  | Reject id => (rejectRequest id st).2
  end.

End Router.

End V2.

(** ** Vocabulary of the statements *)

(** The entries of a grade. *)
Definition ofGrade (G : option string) (e : ObjectId * Schedule.doc) : Prop :=
  Schedule.grade e.2 = G.

#[global] Instance ofGrade_dec G e : Decision (ofGrade G e).
Proof. unfold ofGrade. apply _. Defined.

(** Schedule ids are drawn from the counter and identify one document. *)
Definition wfSchedules (st : Store) : Prop :=
  NoDup (schedules st).*1 /\ idsBelow (nextId st) (schedules st).

(** Every stored email is its own lower-case form. *)
Definition lowercaseEmails `{Env} (c : collection User.doc) : Prop :=
  Forall (fun u => exists e, User.email u.2 = Some e /\ toLowerCase e = e) c.

(** The selection a pattern of the [RegExp] fragment makes. *)
Definition nameMatches (p : RegExp.pattern) (d : Faculty.doc) : Prop :=
  Auth.nameSelected (RegExp.test p) d.

(** Identity strings without a [RegExp] syntax character, and the pattern
    such a string stands for. *)
Fixpoint plain (s : string) : bool :=
  match s with
  | EmptyString => true
  | String c r => negb (RegExp.isSyntaxChar c) && plain r
  end.

Fixpoint literals (s : string) : RegExp.pattern :=
  match s with
  | EmptyString => []
  | String c r => RegExp.Atom (RegExp.Lit c) RegExp.Once :: literals r
  end.

(** A collection whose ids identify one document each and were drawn
    from the counter. *)
Definition wfColl {A} (n : ObjectId) (c : collection A) : Prop :=
  NoDup c.*1 /\ idsBelow n c.

#[global] Instance wfColl_dec {A} n (c : collection A) : Decision (wfColl n c).
Proof. unfold wfColl, idsBelow. apply _. Defined.

Definition wfStore (st : Store) : Prop :=
  wfColl (nextId st) (users st) /\
  forall m, wfColl (nextId st) (documents m st).

(** No two stored users carry the same email. *)
Definition uniqueEmails (c : collection User.doc) : Prop :=
  NoDup ((fun u => User.email u.2) <$> c).

#[global] Instance uniqueEmails_dec c : Decision (uniqueEmails c).
Proof. unfold uniqueEmails. apply _. Defined.

(** A string without the code unit [c]. *)
Fixpoint without (c : ascii) (s : string) : bool :=
  match s with
  | EmptyString => true
  | String x r => negb (Ascii.eqb x c) && without c r
  end.

(** What a schedule entry is apart from its faculty. *)
Definition slot (e : ObjectId * Schedule.doc) :=
  (e.1, Schedule.grade e.2, Schedule.subject e.2, Schedule.classroom e.2,
   Schedule.day e.2, Schedule.time e.2).

(** ** Stores and requests to run the handlers on *)

(** A hexadecimal digit. *)
Definition hexDigit (c : ascii) : option N :=
  let n := N_of_ascii c in
  if (48 <=? n)%N && (n <=? 57)%N then Some (n - 48)%N
  else if (97 <=? n)%N && (n <=? 102)%N then Some (n - 87)%N
  else if (65 <=? n)%N && (n <=? 70)%N then Some (n - 55)%N
  else None.

Fixpoint hexValue (s : string) (acc : N) : option N :=
  match s with
  | EmptyString => Some acc
  | String c r =>
      match hexDigit c with
      | Some d => hexValue r (16 * acc + d)%N
      | None => None
      end
  end.

(** The 24 hexadecimal digits of an ObjectId. *)
Definition hexObjectId (s : string) : option ObjectId :=
  if Nat.eqb (String.length s) 24 then N.to_nat <$> hexValue s 0%N else None.

(** The regular expressions of the [RegExp] fragment; a source outside it
    counts as ill-formed here, and the examples stay inside. *)
Definition fragmentRegexp (source : string) : option (string -> bool) :=
  match RegExp.compile source with
  | RegExp.Pattern p => Some (RegExp.test p)
  | _ => None
  end.

(** An environment: the hash is a tagged copy, the one valid token decodes
    to the demo admin, the built-ins are those of ASCII text and of the
    [RegExp] fragment, and an id is its 24 hexadecimal digits. *)
Definition demoEnv : Env :=
  mkEnv "smartclass_secret_key"
        (fun s => "hash:" ++ s)
        (fun s h => String.eqb ("hash:" ++ s) h)
        (fun _ _ _ => "signed")
        (fun token _ =>
           if String.eqb token "admin-token"
           then Some (Jwt.mk (Some 0) (Some "admin") (Some "Demo Admin") None)
           else None)
        AsciiText.toUpperCase AsciiText.toLowerCase AsciiText.trim
        AsciiText.charAt fragmentRegexp hexObjectId.

(** The scenario of the specification: Alice's Monday 9am class of 10A
    goes to Bob. *)
Definition mondayClass : Schedule.doc :=
  Schedule.mk (Some "10A") (Some "Math") (Some "Alice") (Some "R1") (Some "Mon") (Some "9am").

Definition aliceToBob : Swap.doc :=
  Swap.mk (Some "Alice") (Some "Bob") (Some "10A") (Some "Mon") (Some "9am") (Some "pending").

Definition scenario : Store :=
  setNextId 2 (setSwaps [(1, aliceToBob)] (setSchedules [(0, mondayClass)] emptyStore)).

Definition lesson (grade subject : string) : Schedule.doc :=
  Schedule.mk (Some grade) (Some subject) (Some "Alice") (Some "R1")
              (Some "Mon") (Some "9am").

(** A timetable with one entry of 10-A and one of 9-B. *)
Definition twoGrades : Store :=
  setNextId 2 (setSchedules [(0, lesson "10-A" "Math"); (1, lesson "9-B" "Art")] emptyStore).

(** A faculty room with Alice, stored with a leading blank, and Bob. *)
Definition staff : Store :=
  setNextId 2 (setFaculties [(0, Faculty.mk (Some " alice")); (1, Faculty.mk (Some "Bob"))]
                            emptyStore).

(** One user, stored by an earlier signup of variant 2. *)
Definition registered : Store :=
  setNextId 1
    (setUsers [(0, User.mk (Some "student") (Some "Alice") (Some "alice@x.com")
                           (Some "hash:secret"))] emptyStore).

(** A teacher's login request. *)
Definition teacherLogin (identity pw : string) : Auth.credentials :=
  Auth.mkCredentials (Val "teacher") Undefined (Val identity) (Val pw).

(** A student's signup request. *)
Definition studentSignup (email pw : string) : Auth.credentials :=
  Auth.mkCredentials (Val "student") (Val "Alice") (Val email) (Val pw).

(** * Properties of the embedding *)

Local Open Scope list_scope.

(** ** Collections *)

Section CollectionFacts.
Context {A : Type}.
Implicit Types (c : collection A) (e : ObjectId * A).

Lemma findById_Some id c e :
  findById id c = Some e <-> exists i, list_find (hasId id) c = Some (i, e).
Proof.
  unfold findById. split.
  - intros ([i e'] & Hf & ->)%fmap_Some. by exists i.
  - intros [i ->]. done.
Qed.

Lemma findById_None id c :
  findById id c = None <-> list_find (hasId id) c = None.
Proof. unfold findById. apply fmap_None. Qed.


Lemma findById_absent id c :
  findById id c = None <-> forall e, e ∈ c -> e.1 <> id.
Proof.
  rewrite findById_None, list_find_None, Forall_forall. reflexivity.
Qed.

Lemma findByIdAndDelete_missing id c :
  findById id c = None -> findByIdAndDelete id c = (None, c).
Proof.
  intros Hn%findById_None. unfold findByIdAndDelete. by rewrite Hn.
Qed.

Lemma findByIdAndUpdate_missing id upd c :
  findById id c = None -> findByIdAndUpdate id upd c = (None, c).
Proof.
  intros Hn%findById_None. unfold findByIdAndUpdate. by rewrite Hn.
Qed.

(** An update by id rewrites one position, and the document is found
    again under the same id. *)
Lemma findByIdAndUpdate_found id upd c d :
  findById id c = Some (id, d) ->
  exists i,
    c !! i = Some (id, d) /\
    findByIdAndUpdate id upd c = (Some (id, upd d), <[i := (id, upd d)]> c) /\
    findById id (<[i := (id, upd d)]> c) = Some (id, upd d).
Proof.
  intros [i Hf]%findById_Some. exists i.
  pose proof Hf as (Hl & _ & Hleast)%list_find_Some.
  split; [exact Hl|]. split.
  - unfold findByIdAndUpdate. by rewrite Hf.
  - apply findById_Some. exists i. apply list_find_insert_Some.
    right; left. split_and!; try done.
    by eapply lookup_lt_Some.
Qed.

Lemma findOneAndUpdate_none (P : A -> Prop) `{!forall d, Decision (P d)} upd c :
  (forall e, e ∈ c -> ~ P e.2) -> findOneAndUpdate P upd c = c.
Proof.
  intros Hn. unfold findOneAndUpdate.
  assert (list_find (fun e => P e.2) c = None) as ->; [|done].
  apply list_find_None, Forall_forall. exact Hn.
Qed.

Lemma findOneAndUpdate_first (P : A -> Prop) `{!forall d, Decision (P d)} upd c :
  (exists e, e ∈ c /\ P e.2) ->
  exists i id d,
    c !! i = Some (id, d) /\ P d /\
    (forall j e, c !! j = Some e -> j < i -> ~ P e.2) /\
    findOneAndUpdate P upd c = <[i := (id, upd d)]> c.
Proof.
  intros (e & He & HP).
  destruct (list_find_elem_of (fun e => P e.2) c e He HP) as [[i [id d]] Hf].
  exists i, id, d. unfold findOneAndUpdate. rewrite Hf.
  apply list_find_Some in Hf as (Hl & Hd & Hleast). done.
Qed.

End CollectionFacts.

(** ** Swap requests *)

Lemma slotOf_setStatus s R d : slotOf (Swap.setStatus s R) d <-> slotOf R d.
Proof. reflexivity. Qed.


(** C1. Approving a stored swap request [R] answers with [R] marked
    "approved" and stores it so; when [R.toFaculty] is non-empty and some
    schedule matches (grade, day, time, faculty = fromFaculty), the first
    such schedule gets [R.toFaculty] as its faculty and the others stay;
    when none matches, or [R.toFaculty] is empty, the schedules stay and
    the answer is still the approved request. *)
Theorem approve_sets_status_and_reassigns
    (st : Store) (id : ObjectId) (R : Swap.doc) :
  findById id (swaps st) = Some (id, R) ->
  let R' := Swap.setStatus (Some "approved") R in
  let st' := (approve id st).2 in
  (approve id st).1 = Json 200 (id, R') /\
  findById id (swaps st') = Some (id, R') /\
  Swap.status R' = Some "approved" /\
  (JsString.truthy (Swap.toFaculty R) = true ->
   (exists e, e ∈ schedules st /\ slotOf R e.2) ->
   exists i sid s,
     schedules st !! i = Some (sid, s) /\ slotOf R s /\
     (forall j e, schedules st !! j = Some e -> j < i -> ~ slotOf R e.2) /\
     schedules st' = <[i := (sid, Schedule.setFaculty (Swap.toFaculty R) s)]> (schedules st) /\
     Schedule.faculty (Schedule.setFaculty (Swap.toFaculty R) s) = Swap.toFaculty R) /\
  ((forall e, e ∈ schedules st -> ~ slotOf R e.2) -> schedules st' = schedules st) /\
  (JsString.truthy (Swap.toFaculty R) = false -> schedules st' = schedules st).
Proof.
  intros Hfound R' st'.
  destruct (findByIdAndUpdate_found id (Swap.setStatus (Some "approved")) _ _ Hfound)
    as (i & Hi & Hupd & Hagain).
  subst st'. unfold approve. rewrite Hupd. fold R'.
  destruct st as [us fs gs cs ls sbs scs sws lvs fbs n]; simpl in *.
  destruct (JsString.truthy (Swap.toFaculty R)) eqn:Htf; simpl.
  - split_and!; try done.
    + intros _ Hex.
      destruct (findOneAndUpdate_first (slotOf R')
                  (Schedule.setFaculty (Swap.toFaculty R)) scs Hex)
        as (k & sid & s & Hk & Hs & Hleast & Heq).
      exists k, sid, s. split_and!; done.
    + intros Hnone. by apply findOneAndUpdate_none.
  - split_and!; done.
Qed.


Lemma approve_sets_status_and_reassigns_witness :
  findById 1 (swaps scenario) = Some (1, aliceToBob) /\
  (approve 1 scenario).1 = Json 200 (1, Swap.setStatus (Some "approved") aliceToBob) /\
  findById 1 (swaps (approve 1 scenario).2)
    = Some (1, Swap.setStatus (Some "approved") aliceToBob) /\
  schedules (approve 1 scenario).2
    = [(0, Schedule.setFaculty (Some "Bob") mondayClass)].
Proof.
  split; [reflexivity|].
  pose proof (approve_sets_status_and_reassigns scenario 1 aliceToBob eq_refl) as H.
  simpl in H. destruct H as (H1 & H2 & _ & H3 & _ & _).
  split_and!; [exact H1 | exact H2 |].
  assert (Hex : exists e, e ∈ schedules scenario /\ slotOf aliceToBob e.2).
  { exists (0, mondayClass). split; [apply list_elem_of_here | by vm_compute]. }
  destruct (H3 eq_refl Hex) as (i & sid & s & Hi & _ & _ & Heq & _).
  destruct i as [|i]; [|discriminate Hi].
  injection Hi as <- <-. exact Heq.
Defined.

(** C6 (as the code has it). [POST /swaps] stores the document made of
    the body under a new id and answers with it.  Its status is "pending"
    when the body has no status field; a status the body carries is
    stored as given, [null] included.  So the stored status is "pending"
    exactly when the body has no status or names "pending" itself. *)
Theorem postSwaps_status_default (body : Swap.Body.t) (st : Store) :
  exists d,
    (postSwaps body st).1 = Json 200 (nextId st, d) /\
    swaps (postSwaps body st).2 = (swaps st ++ [(nextId st, d)])%list /\
    Swap.status d
    = match Swap.Body.status body with
      | Undefined => Some "pending"
      | Null => None
      | Val s => Some s
      end /\
    (Swap.status d = Some "pending" <->
     Swap.Body.status body = Undefined \/ Swap.Body.status body = Val "pending").
Proof.
  exists (Swap.create body). unfold postSwaps.
  destruct st; simpl. split_and!; try done.
  destruct (Swap.Body.status body) as [| |s]; simpl.
  - split; [by left | done].
  - split; [done | by intros [|]].
  - split; [intros [= ->]; by right | intros [|[= ->]]; done].
Qed.

Lemma postSwaps_status_default_witness :
  swaps (postSwaps (Swap.Body.mk (Val "Alice") (Val "Bob") (Val "10A") (Val "Mon")
                                 (Val "9am") Undefined) emptyStore).2
  = [(0, aliceToBob)].
Proof.
  destruct (postSwaps_status_default
              (Swap.Body.mk (Val "Alice") (Val "Bob") (Val "10A") (Val "Mon")
                            (Val "9am") Undefined) emptyStore)
    as (d & Hd & Hs & _ & Hiff).
  rewrite Hs. injection Hd as <-. reflexivity.
Defined.

(** C6 fails as stated: a body that names a status is stored with it, and
    a body whose status is [null] is stored without one. *)
Lemma postSwaps_status_counterexample :
  let named := Swap.Body.mk (Val "Alice") (Val "Bob") (Val "10A") (Val "Mon")
                            (Val "9am") (Val "approved") in
  let null := Swap.Body.mk (Val "Alice") (Val "Bob") (Val "10A") (Val "Mon")
                           (Val "9am") Null in
  swaps (postSwaps named emptyStore).2
  = [(0, Swap.mk (Some "Alice") (Some "Bob") (Some "10A") (Some "Mon")
                 (Some "9am") (Some "approved"))] /\
  swaps (postSwaps null emptyStore).2
  = [(0, Swap.mk (Some "Alice") (Some "Bob") (Some "10A") (Some "Mon")
                 (Some "9am") None)] /\
  Some "approved"%string <> Some "pending"%string /\
  (None : option string) <> Some "pending"%string.
Proof. split_and!; [reflexivity | reflexivity | discriminate | discriminate]. Qed.

(** C7. Rejecting writes nothing but the status of the swap request with
    that id: the schedules and every other collection are as before, and
    the swap collection differs at most in that one request. *)
Theorem reject_leaves_schedules (st : Store) (id : ObjectId) :
  let st' := (reject id st).2 in
  schedules st' = schedules st /\
  users st' = users st /\ faculties st' = faculties st /\
  grades st' = grades st /\ classrooms st' = classrooms st /\
  labs st' = labs st /\ subjects st' = subjects st /\
  leaves st' = leaves st /\ feedbacks st' = feedbacks st /\
  nextId st' = nextId st /\
  swaps st' = (findByIdAndUpdate id (Swap.setStatus (Some "rejected")) (swaps st)).2 /\
  (forall j e, swaps st !! j = Some e -> e.1 <> id -> swaps st' !! j = Some e).
Proof.
  unfold reject.
  destruct (findByIdAndUpdate id (Swap.setStatus (Some "rejected")) (swaps st))
    as [found swaps'] eqn:Hupd.
  destruct st as [us fs gs cs ls sbs scs sws lvs fbs n]; simpl in *.
  split_and!; try done.
  intros j e Hj Hne. unfold findByIdAndUpdate in Hupd.
  destruct (list_find (hasId id) sws) as [[i e0]|] eqn:Hf.
  - injection Hupd as _ <-.
    apply list_find_Some in Hf as (Hi & Hid & _).
    destruct (decide (i = j)) as [->|Hij].
    + assert (e0 = e) as -> by congruence. by destruct Hne.
    + by rewrite list_lookup_insert_ne.
  - by injection Hupd as _ <-.
Qed.

Lemma reject_leaves_schedules_witness :
  schedules (reject 1 scenario).2 = schedules scenario /\
  swaps (reject 1 scenario).2 = [(1, Swap.setStatus (Some "rejected") aliceToBob)] /\
  schedules (reject 7 scenario).2 = schedules scenario /\
  swaps (reject 7 scenario).2 !! 0 = Some (1, aliceToBob).
Proof.
  pose proof (reject_leaves_schedules scenario 1) as (H1 & _ & _ & _ & _ & _ & _ & _ & _ & _ & H2 & _).
  pose proof (reject_leaves_schedules scenario 7) as (H3 & _ & _ & _ & _ & _ & _ & _ & _ & _ & _ & H4).
  split_and!; [exact H1 | exact H2 | exact H3 |].
  apply (H4 0 (1, aliceToBob)); [reflexivity | simpl; lia].
Defined.

(** C8 (as the code has it). On every delete-by-id route of either
    variant: when the parameter is the id of no stored document of the
    collection, the answer is the payload [null] with status 200 and the
    store is as it was; when the parameter is no ObjectId at all, the
    query throws a CastError, which no handler catches: no response is
    sent, and the store is as it was. *)
Theorem deleteRequest_missing `{Env} (m : model) (param : string) (st : Store) :
  (forall id, castObjectId param = Some id ->
     findById id (documents m st) = None ->
     deleteRequest m param st = (Json 200 None, st)) /\
  (castObjectId param = None ->
     deleteRequest m param st = (Rejected CastError, st) /\
     ~ responded (deleteRequest m param st).1).
Proof.
  unfold deleteRequest, withId. split.
  - intros id -> Hn. unfold deleteById.
    rewrite (findByIdAndDelete_missing _ _ Hn).
    destruct st; destruct m; reflexivity.
  - intros ->. split; [reflexivity | simpl; tauto].
Qed.

Lemma deleteRequest_missing_witness :
  deleteRequest (H := demoEnv) MFaculty "000000000000000000000007" scenario
  = (Json 200 None, scenario) /\
  deleteRequest (H := demoEnv) MSwap "00000000000000000000000a" scenario
  = (Json 200 None, scenario) /\
  deleteRequest (H := demoEnv) MSwap "abc" scenario = (Rejected CastError, scenario).
Proof.
  split_and!.
  - apply (deleteRequest_missing (H := demoEnv) MFaculty
             "000000000000000000000007" scenario) with (id := 7); reflexivity.
  - apply (deleteRequest_missing (H := demoEnv) MSwap
             "00000000000000000000000a" scenario) with (id := 10); reflexivity.
  - apply (deleteRequest_missing (H := demoEnv) MSwap "abc" scenario). reflexivity.
Defined.

(** C8 fails as stated: [abc] is the id of no stored faculty document,
    and [DELETE /faculty/abc] sends no response, not-found or other: the
    cast of the parameter throws. *)
Lemma deleteRequest_missing_counterexample :
  Forall (fun e => castObjectId (Env := demoEnv) "abc" <> Some e.1)
         (faculties (setFaculties [(0, Faculty.mk (Some "Alice"))] scenario)) /\
  deleteRequest (H := demoEnv) MFaculty "abc"
    (setFaculties [(0, Faculty.mk (Some "Alice"))] scenario)
  = (Rejected CastError, setFaculties [(0, Faculty.mk (Some "Alice"))] scenario) /\
  ~ responded (deleteRequest (H := demoEnv) MFaculty "abc"
                 (setFaculties [(0, Faculty.mk (Some "Alice"))] scenario)).1.
Proof.
  split_and!.
  - apply Forall_singleton. discriminate.
  - reflexivity.
  - simpl. tauto.
Qed.



(** ** The timetable *)

Section TimetableFacts.
Implicit Types (G : option string) (L : list Schedule.doc).


Lemma withIds_cons {A} n (d : A) (l : list A) :
  withIds n (d :: l) = (n, d) :: withIds (S n) l.
Proof. reflexivity. Qed.

Lemma withIds_docs {A} n (l : list A) : (withIds n l).*2 = l.
Proof. unfold withIds. apply snd_zip. by rewrite length_seq. Qed.

Lemma withIds_ids {A} n (l : list A) : (withIds n l).*1 = seq n (length l).
Proof. unfold withIds. apply fst_zip. by rewrite length_seq. Qed.

Lemma withIds_elem {A} n (l : list A) d :
  d ∈ l -> exists id, n <= id /\ (id, d) ∈ withIds n l.
Proof.
  revert n. induction l as [|x l IH]; intros n Hd.
  - by apply elem_of_nil in Hd.
  - rewrite withIds_cons. apply elem_of_cons in Hd as [->|Hd].
    + exists n. split; [lia | apply list_elem_of_here].
    + destruct (IH (S n) Hd) as (id & Hle & Hin).
      exists id. split; [lia | by apply list_elem_of_further].
Qed.

Lemma filter_withIds G n L :
  (filter (ofGrade G) (withIds n L)).*2 = filter (fun d => Schedule.grade d = G) L.
Proof.
  revert n. induction L as [|d L IH]; intros n; [done|].
  rewrite withIds_cons. rewrite !filter_cons. unfold ofGrade at 1. simpl.
  destruct (decide (Schedule.grade d = G)); simpl; by rewrite IH.
Qed.

Lemma filter_deleted G (c : collection Schedule.doc) :
  filter (ofGrade G) (filter (fun e => Schedule.grade e.2 <> G) c) = [].
Proof.
  induction c as [|e c IH]; [done|].
  rewrite filter_cons. destruct (decide (Schedule.grade e.2 <> G)) as [Hne|He].
  - rewrite filter_cons_False; [exact IH | exact Hne].
  - exact IH.
Qed.

Lemma schedules_postSchedules G L st :
  schedules (postSchedules G L st).2
  = (filter (fun e => Schedule.grade e.2 <> G) (schedules st)
     ++ withIds (nextId st) L)%list.
Proof. by destruct st. Qed.

Lemma unique_by_id {A} (c : collection A) id (d1 d2 : A) :
  NoDup c.*1 -> (id, d1) ∈ c -> (id, d2) ∈ c -> d1 = d2.
Proof.
  induction c as [|[k d] c IH]; intros Hnd H1 H2.
  - by apply elem_of_nil in H1.
  - rewrite fmap_cons in Hnd. apply NoDup_cons in Hnd as [Hk Hnd]. simpl in Hk.
    apply elem_of_cons in H1 as [H1|H1]; apply elem_of_cons in H2 as [H2|H2].
    + congruence.
    + injection H1 as -> ->. destruct Hk.
      apply list_elem_of_fmap. by exists (k, d2).
    + injection H2 as -> ->. destruct Hk.
      apply list_elem_of_fmap. by exists (k, d1).
    + by apply IH.
Qed.

End TimetableFacts.

(** C3 (as the code has it). After [POST /schedules] with grade [G] and
    list [L], the stored entries are the former entries of the other
    grades, in their order and unchanged, followed by [L] under fresh ids.
    So the entries of grade [G] are exactly those of [L] whose own grade is
    [G] (all of [L] when every entry of [L] carries [G]), every former
    entry of another grade is still stored, and under well-formed ids no
    former entry of grade [G] is. *)
Theorem postSchedules_replaces_grade
    (G : option string) (L : list Schedule.doc) (st : Store) :
  let st' := (postSchedules G L st).2 in
  (postSchedules G L st).1 = Json 200 (withIds (nextId st) L) /\
  schedules st'
  = (filter (fun e => Schedule.grade e.2 <> G) (schedules st)
     ++ withIds (nextId st) L)%list /\
  (filter (ofGrade G) (schedules st')).*2
  = filter (fun d => Schedule.grade d = G) L /\
  (Forall (fun d => Schedule.grade d = G) L ->
   (filter (ofGrade G) (schedules st')).*2 = L) /\
  (forall e, e ∈ schedules st -> Schedule.grade e.2 <> G -> e ∈ schedules st') /\
  (wfSchedules st ->
   forall e, e ∈ schedules st -> Schedule.grade e.2 = G ->
             e.1 ∉ (schedules st').*1).
Proof.
  intros st'. subst st'. rewrite schedules_postSchedules.
  assert (Hgrade :
    (filter (ofGrade G)
       (filter (fun e => Schedule.grade e.2 <> G) (schedules st)
        ++ withIds (nextId st) L)).*2
    = filter (fun d => Schedule.grade d = G) L).
  { rewrite filter_app.
    rewrite filter_deleted. simpl. apply filter_withIds. }
  split_and!.
  - by destruct st.
  - done.
  - exact Hgrade.
  - intros Hall. rewrite Hgrade.
    clear Hgrade. induction Hall as [|d L' Hd _ IH]; [done|].
    by rewrite filter_cons_True, IH.
  - intros e He Hne. apply elem_of_app. left.
    apply list_elem_of_filter. by split.
  - intros [Hnd Hbelow] [id d] He Hg Hin. simpl in *.
    rewrite fmap_app in Hin. apply elem_of_app in Hin as [Hin|Hin].
    + apply list_elem_of_fmap in Hin as ([id' d'] & Hid & Hin'). simpl in Hid. subst id'.
      apply list_elem_of_filter in Hin' as [Hne Hin']. simpl in Hne.
      by rewrite (unique_by_id _ _ _ _ Hnd He Hin') in Hg.
    + rewrite withIds_ids in Hin. apply elem_of_seq in Hin as [Hle _].
      unfold idsBelow in Hbelow. rewrite Forall_forall in Hbelow.
      specialize (Hbelow _ He). simpl in Hbelow. lia.
Qed.


Lemma postSchedules_replaces_grade_witness :
  Forall (fun d => Schedule.grade d = Some "10-A") [lesson "10-A" "Physics"] /\
  wfSchedules twoGrades /\
  (filter (ofGrade (Some "10-A"))
     (schedules (postSchedules (Some "10-A") [lesson "10-A" "Physics"] twoGrades).2)).*2
  = [lesson "10-A" "Physics"] /\
  (1, lesson "9-B" "Art")
    ∈ schedules (postSchedules (Some "10-A") [lesson "10-A" "Physics"] twoGrades).2 /\
  0 ∉ (schedules (postSchedules (Some "10-A") [lesson "10-A" "Physics"] twoGrades).2).*1.
Proof.
  assert (Hall : Forall (fun d => Schedule.grade d = Some "10-A") [lesson "10-A" "Physics"]).
  { by repeat constructor. }
  assert (Hwf : wfSchedules twoGrades).
  { split.
    - simpl. apply NoDup_cons. split; [by intros [?|?%elem_of_nil]%elem_of_cons|].
      apply NoDup_singleton.
    - unfold idsBelow. simpl. repeat constructor; simpl; lia. }
  pose proof (postSchedules_replaces_grade (Some "10-A") [lesson "10-A" "Physics"] twoGrades)
    as (_ & _ & _ & H4 & H5 & H6).
  split_and!; [exact Hall | exact Hwf | exact (H4 Hall) | |].
  - apply (H5 (1, lesson "9-B" "Art")).
    + simpl. apply list_elem_of_further, list_elem_of_here.
    + discriminate.
  - apply (H6 Hwf (0, lesson "10-A" "Math")).
    + simpl. apply list_elem_of_here.
    + reflexivity.
Defined.

(** C3 fails as stated: an entry of [L] that carries another grade is not
    an entry of grade [G] afterwards, so grade [G] does not hold exactly
    the entries of [L]. *)
Lemma postSchedules_replaces_grade_counterexample :
  (filter (ofGrade (Some "10-A"))
     (schedules (postSchedules (Some "10-A") [lesson "9-B" "Art"] emptyStore).2)).*2
  <> [lesson "9-B" "Art"].
Proof. vm_compute. discriminate. Qed.

(** C10. The list of [POST /schedules] is inserted as it is, with no
    comparison of an entry's grade to the request's grade: every entry of
    [L] is stored unchanged, the delete before it removes no entry of
    another grade, and so an inserted entry of a foreign grade stands next
    to the entries that grade already had.  Some input does carry such an
    entry. *)
Theorem postSchedules_inserts_verbatim
    (G : option string) (L : list Schedule.doc) (st : Store) :
  let st' := (postSchedules G L st).2 in
  (forall d, d ∈ L -> exists id, nextId st <= id /\ (id, d) ∈ schedules st') /\
  (forall e, e ∈ schedules st -> Schedule.grade e.2 <> G -> e ∈ schedules st') /\
  (forall e d, e ∈ schedules st -> d ∈ L ->
     Schedule.grade e.2 <> G -> Schedule.grade d = Schedule.grade e.2 ->
     e ∈ schedules st' /\ exists id, (id, d) ∈ schedules st' /\ Schedule.grade d <> G).
Proof.
  intros st'. subst st'. rewrite schedules_postSchedules.
  assert (Hins : forall d, d ∈ L -> exists id, nextId st <= id /\
            (id, d) ∈ (filter (fun e => Schedule.grade e.2 <> G) (schedules st)
                        ++ withIds (nextId st) L)%list).
  { intros d Hd. destruct (withIds_elem (nextId st) L d Hd) as (id & Hle & Hin).
    exists id. split; [exact Hle|]. apply elem_of_app. by right. }
  assert (Hkeep : forall e, e ∈ schedules st -> Schedule.grade e.2 <> G ->
            e ∈ (filter (fun e => Schedule.grade e.2 <> G) (schedules st)
                  ++ withIds (nextId st) L)%list).
  { intros e He Hne. apply elem_of_app. left. apply list_elem_of_filter. by split. }
  split_and!; [exact Hins | exact Hkeep |].
  intros e d He Hd Hne Hsame. split; [by apply Hkeep|].
  destruct (Hins d Hd) as (id & _ & Hin). exists id. split; [exact Hin | congruence].
Qed.

Lemma postSchedules_inserts_verbatim_witness :
  let st' := (postSchedules (Some "10-A") [lesson "9-B" "Music"] twoGrades).2 in
  Schedule.grade (lesson "9-B" "Music") <> Some "10-A" /\
  (1, lesson "9-B" "Art") ∈ schedules st' /\
  exists id, (id, lesson "9-B" "Music") ∈ schedules st'.
Proof.
  intros st'.
  pose proof (postSchedules_inserts_verbatim (Some "10-A") [lesson "9-B" "Music"] twoGrades)
    as (_ & _ & H3).
  destruct (H3 (1, lesson "9-B" "Art") (lesson "9-B" "Music")) as (Hold & id & Hnew & Hne).
  - simpl. apply list_elem_of_further, list_elem_of_here.
  - apply list_elem_of_here.
  - discriminate.
  - reflexivity.
  - split; [exact Hne|]. split; [exact Hold|]. by exists id.
Defined.

(** ** Authentication *)

Import JsString Auth.

Section StringFacts.

Lemma truthy_Some v : truthy v = true -> exists s, v = Some s /\ s <> "".
Proof.
  destruct v as [s|]; [|discriminate]. simpl. intros Hs. exists s. split; [done|].
  intros ->. discriminate.
Qed.

(** A truthy field of a body is a non-empty string. *)
Lemma truthy_Val v : Field.truthy v = true -> exists s, v = Val s /\ s <> "".
Proof.
  destruct v as [| |s]; [discriminate.. |]. intros Hs. exists s. split; [done|].
  intros ->. discriminate.
Qed.

End StringFacts.

Section AsciiFacts.
Import AsciiText.

Lemma lowerChar_idemp c : lowerChar (lowerChar c) = lowerChar c.
Proof. destruct c as [[] [] [] [] [] [] [] []]; reflexivity. Qed.

Lemma toLowerCase_idemp s : toLowerCase (toLowerCase s) = toLowerCase s.
Proof.
  unfold toLowerCase. induction s as [|c s IH]; simpl; [done|].
  by rewrite lowerChar_idemp, IH.
Qed.

End AsciiFacts.

(** A faculty document the filter selects has a string for a name. *)
Lemma findOne_nameSelected test (c : collection Faculty.doc) F :
  findOne (nameSelected test) c = Some F ->
  exists n, Faculty.name F.2 = Some n /\ test n = true /\ F ∈ c.
Proof.
  unfold findOne. intros ([i F'] & Hf & ->)%fmap_Some.
  apply list_find_Some in Hf as (Hl & Hm & _). simpl.
  unfold nameSelected in Hm. destruct (Faculty.name F'.2) as [n|]; [|done].
  exists n. split_and!; [done.. | by eapply list_elem_of_lookup_2].
Qed.

(** C2. Once the teacher login has found the Faculty record [F], whatever
    the identity that selected it, [F] has a name [n] and the login
    succeeds exactly on the password [n.trim().charAt(0).toUpperCase()]
    followed by "1234": on that password it answers with a session for
    the teacher [n], on any other password, or none, it answers 400
    "Invalid password", and it writes nothing.  In variant 2 the lookup
    is reached only past the required-fields check. *)
Theorem teacher_password_rule `{Env}
    (body : credentials) (st : Store) (test : string -> bool)
    (F : ObjectId * Faculty.doc) :
  role body = Val "teacher" ->
  regexp (nameSource (email body)) = Some test ->
  findOne (nameSelected test) (faculties st) = Some F ->
  exists n,
    Faculty.name F.2 = Some n /\
    let accepted := (toUpperCase (charAt 0 (trim n)) ++ "1234")%string in
    (password body = Val accepted ->
     exists s, V1.login body st = (Json 200 (Data s), st) /\
               sessionRole s = Some "teacher" /\ sessionName s = Some n) /\
    (password body <> Val accepted ->
     V1.login body st = (Json 400 (Message "Invalid password"), st)) /\
    (Field.truthy (email body) = true -> Field.truthy (password body) = true ->
     (password body = Val accepted ->
      exists s, V2.login body st = (Json 200 (Data s), st) /\
                sessionRole s = Some "teacher" /\ sessionName s = Some n) /\
     (password body <> Val accepted ->
      V2.login body st = (Json 400 (Message "Invalid password"), st))).
Proof.
  intros Hrole Hre Hfind.
  destruct (findOne_nameSelected _ _ _ Hfind) as (n & Hn & _ & _).
  exists n. split; [exact Hn|]. intros accepted. split_and!.
  - intros Hpw. unfold V1.login. rewrite decide_True by done.
    rewrite Hre, Hfind, Hn. rewrite decide_False by (intros Hne; by apply Hne).
    eexists. split; [reflexivity|]. by split.
  - intros Hpw. unfold V1.login. rewrite decide_True by done.
    rewrite Hre, Hfind, Hn. by rewrite decide_True.
  - intros He Hp. unfold V2.login.
    assert (Hr : Field.truthy (role body) = true) by (by rewrite Hrole).
    rewrite Hr, He, Hp. cbn [negb orb].
    rewrite decide_True by done. rewrite Hre, Hfind, Hn.
    split.
    + intros Hpw. rewrite decide_False by (intros Hne; by apply Hne).
      eexists. split; [reflexivity|]. by split.
    + intros Hpw. by rewrite decide_True.
Qed.

Lemma teacher_password_rule_witness :
  (exists s, V1.login (H := demoEnv) (teacherLogin " Alice" "A1234") staff
             = (Json 200 (Data s), staff)) /\
  V2.login (H := demoEnv) (teacherLogin " Alice" "a1234") staff
  = (Json 400 (Message "Invalid password"), staff).
Proof.
  split.
  - destruct (teacher_password_rule (H := demoEnv)
                (teacherLogin " Alice" "A1234") staff
                (RegExp.test (RegExp.AssertStart :: literals " Alice" ++ [RegExp.AssertEnd]))
                (0, Faculty.mk (Some " alice")) eq_refl eq_refl eq_refl)
      as (n & Hn & Hok & _).
    injection Hn as <-.
    destruct (Hok eq_refl) as (s & Hs & _). by exists s.
  - destruct (teacher_password_rule (H := demoEnv)
                (teacherLogin " Alice" "a1234") staff
                (RegExp.test (RegExp.AssertStart :: literals " Alice" ++ [RegExp.AssertEnd]))
                (0, Faculty.mk (Some " alice")) eq_refl eq_refl eq_refl)
      as (n & Hn & _ & _ & Hv2).
    injection Hn as <-.
    destruct (Hv2 eq_refl eq_refl) as (_ & Hbad). apply Hbad. discriminate.
Defined.

(** ** The Faculty lookup of the teacher login *)

Section PlainNames.
Import RegExp AsciiText.


Lemma parse_plain_char c r acc :
  isSyntaxChar c = false -> parse (String c r) acc = parse r (Atom (Lit c) Once :: acc).
Proof.
  intros Hc. pose proof Hc as Hc'. unfold isSyntaxChar in Hc'.
  repeat (apply orb_false_elim in Hc' as [Hc' ?]).
  simpl. rewrite Hc. by repeat match goal with
    | Heq : _ = false |- _ => rewrite Heq; clear Heq
    end.
Qed.

Lemma parse_plain s rest acc :
  plain s = true ->
  parse (s ++ rest)%string acc = parse rest (rev (literals s) ++ acc).
Proof.
  revert acc. induction s as [|c s IH]; intros acc Hs; [done|].
  simpl in Hs. apply andb_prop in Hs as [Hc Hs]. apply negb_true_iff in Hc.
  change (String c s ++ rest)%string with (String c (s ++ rest)%string).
  rewrite parse_plain_char by done. rewrite (IH (Atom (Lit c) Once :: acc)) by done.
  simpl. by rewrite <- app_assoc.
Qed.

Lemma compile_plain E :
  plain E = true ->
  compile (nameSource (Val E)) = Pattern (AssertStart :: literals E ++ [AssertEnd]).
Proof.
  intros HE. unfold compile, nameSource. simpl.
  rewrite (parse_plain E "$") by done. simpl.
  rewrite rev_app_distr. simpl. by rewrite rev_involutive.
Qed.

Lemma upper_eqb_sym a b :
  Ascii.eqb (upperChar a) (upperChar b) = Ascii.eqb (upperChar b) (upperChar a).
Proof. apply Ascii.eqb_sym. Qed.

Lemma matchHere_literals E b s :
  matchHere (literals E ++ [AssertEnd]) b s
  = String.eqb (toUpperCase s) (toUpperCase E).
Proof.
  revert b s. induction E as [|c E IH]; intros b s.
  - destruct s; reflexivity.
  - simpl. destruct s as [|x s]; [done|]. simpl.
    rewrite IH. by rewrite upper_eqb_sym.
Qed.

Lemma searchFrom_anchored p s : searchFrom (AssertStart :: p) s = false.
Proof. induction s as [|c s IH]; simpl; [done | exact IH]. Qed.

Lemma test_anchored p s : test (AssertStart :: p) s = matchHere p true s.
Proof.
  unfold test. destruct s as [|c s].
  - simpl. by rewrite orb_false_r.
  - rewrite searchFrom_anchored. simpl. by rewrite orb_false_r.
Qed.

(** For a plain identity string the lookup is the whole-string,
    case-insensitive comparison. *)
Lemma nameMatches_plain E :
  plain E = true ->
  exists p,
    compile (nameSource (Val E)) = Pattern p /\
    forall d, nameMatches p d <->
              exists n, Faculty.name d = Some n /\ toUpperCase n = toUpperCase E.
Proof.
  intros HE. eexists. split; [by apply compile_plain|].
  intros d. unfold nameMatches, nameSelected. destruct (Faculty.name d) as [n|].
  - rewrite test_anchored, matchHere_literals. rewrite String.eqb_eq.
    split; [by eauto | by intros (? & [= <-] & ?)].
  - split; [done | by intros (? & ? & _)].
Qed.

End PlainNames.

(** C5, evaluated.  With the identity [.*] the lookup selects Alice, whose
    name is not [.*] in any letter case, and the login goes through on her
    derived password; with the identity [a.c] it selects [abc]; and a
    faculty member whose name is [C++] is not selected by that very name:
    the source of the pattern is ill-formed, variant 1 throws and variant 2
    answers 500, neither answers 400. *)
Theorem teacher_lookup_unescaped :
  let alice := setFaculties [(0, Faculty.mk (Some "Alice"))] emptyStore in
  let abc := setFaculties [(0, Faculty.mk (Some "abc"))] emptyStore in
  let cpp := setFaculties [(0, Faculty.mk (Some "C++"))] emptyStore in
  AsciiText.toUpperCase "Alice" <> AsciiText.toUpperCase ".*" /\
  (exists s, V1.login (H := demoEnv) (teacherLogin ".*" "A1234") alice
             = (Json 200 (Data s), alice) /\ sessionName s = Some "Alice") /\
  (exists s, V2.login (H := demoEnv) (teacherLogin ".*" "A1234") alice
             = (Json 200 (Data s), alice) /\ sessionName s = Some "Alice") /\
  AsciiText.toUpperCase "abc" <> AsciiText.toUpperCase "a.c" /\
  (exists s, V2.login (H := demoEnv) (teacherLogin "a.c" "A1234") abc
             = (Json 200 (Data s), abc) /\ sessionName s = Some "abc") /\
  V1.login (H := demoEnv) (teacherLogin "C++" "C1234") cpp = (Rejected RegExpSyntaxError, cpp) /\
  V2.login (H := demoEnv) (teacherLogin "C++" "C1234") cpp
  = (Json 500 (Message "Server error"), cpp).
Proof.
  intros alice abc cpp. split_and!.
  - discriminate.
  - eexists. split; [vm_compute; reflexivity | reflexivity].
  - eexists. split; [vm_compute; reflexivity | reflexivity].
  - discriminate.
  - eexists. split; [vm_compute; reflexivity | reflexivity].
  - vm_compute. reflexivity.
  - vm_compute. reflexivity.
Qed.

(** ** Signup *)

Lemma saveUser_users u st : users (saveUser u st) = users st ++ [(nextId st, u)].
Proof. by destruct st. Qed.

Lemma findOne_hasEmail_Some e (c : collection User.doc) u :
  u ∈ c -> User.email u.2 = e -> is_Some (findOne (hasEmail e) c).
Proof.
  intros Hu He. unfold findOne.
  destruct (list_find_elem_of (fun u => hasEmail e u.2) c u Hu He) as [[i u'] ->].
  by eexists.
Qed.

Lemma findOne_hasEmail_free e (c : collection User.doc) :
  findOne (hasEmail e) c = None <-> forall u, u ∈ c -> User.email u.2 <> e.
Proof.
  unfold findOne. rewrite fmap_None, list_find_None, Forall_forall. reflexivity.
Qed.

Section SignupFacts.
Context `{Env}.

Lemma V2_signup_users body st :
  users (V2.signup body st).2 = users st \/
  users (V2.signup body st).2
  = users st ++ [(nextId st,
                  User.mk (stored (role body)) (stored (name body))
                          (Some (toLowerCase (Field.toString (email body))))
                          (Some (hashSync (Field.toString (password body)))))].
Proof.
  unfold V2.signup.
  destruct (negb (Field.truthy (role body)) || negb (Field.truthy (name body))
            || negb (Field.truthy (email body)) || negb (Field.truthy (password body)));
    [by left|].
  destruct (findOne _ (users st)); [by left|].
  right. cbn [snd]. apply saveUser_users.
Qed.

(** With its four fields present a signup is decided by the lookup of the
    lowercased email. *)
Lemma V2_signup_present body st :
  Field.truthy (role body) = true -> Field.truthy (name body) = true ->
  Field.truthy (email body) = true -> Field.truthy (password body) = true ->
  V2.signup body st
  = match findOne (hasEmail (Some (toLowerCase (Field.toString (email body)))))
                  (users st) with
    | Some _ => (Json 400 (Message "User already exists"), st)
    | None =>
        (Json 200 (Message "Signup successful"),
         saveUser (User.mk (stored (role body)) (stored (name body))
                           (Some (toLowerCase (Field.toString (email body))))
                           (Some (hashSync (Field.toString (password body))))) st)
    end.
Proof. intros Hr Hn He Hp. unfold V2.signup. by rewrite Hr, Hn, He, Hp. Qed.

(** The demo accounts keep the stored emails in lower case, their own
    emails being in lower case. *)
Lemma seedDefaultAccounts_lowercase st :
  toLowerCase "student@smartclass.com" = "student@smartclass.com"%string ->
  toLowerCase "admin@smartclass.com" = "admin@smartclass.com"%string ->
  lowercaseEmails (users st) ->
  lowercaseEmails (users (V2.seedDefaultAccounts st)).
Proof.
  intros Hs Ha Hst. unfold V2.seedDefaultAccounts.
  set (st1 := match findOne _ (users st) with Some _ => st | None => _ end).
  assert (Hst1 : lowercaseEmails (users st1)).
  { subst st1. destruct (findOne _ (users st)); [done|].
    rewrite saveUser_users. apply Forall_app. split; [done|].
    apply Forall_singleton. by eexists. }
  destruct (findOne _ (users st1)); [done|].
  rewrite saveUser_users. apply Forall_app. split; [done|].
  apply Forall_singleton. by eexists.
Qed.

End SignupFacts.

(** C4 (as the code has it).  Variant 2 lowercases the supplied email
    before the uniqueness check and before storage.  Whatever it stores
    carries the lowercased email.  With the four fields present the
    signup is answered 400 "User already exists", nothing stored, exactly
    when a stored user carries the lowercased email, and otherwise stores
    the user under it.  So a signup whose email differs only in letter
    case from the email of a stored user is answered 400 and stores
    nothing when that stored email is in lower case; and after a signup
    that went through, a signup under an email that differs from it only
    in letter case is answered 400. *)
Theorem signup_normalizes_email `{Env} (body : credentials) (st : Store) :
  let e := toLowerCase (Field.toString (email body)) in
  (forall u, u ∈ users (V2.signup body st).2 ->
     u ∈ users st \/ User.email u.2 = Some e) /\
  (Field.truthy (role body) = true -> Field.truthy (name body) = true ->
   Field.truthy (email body) = true -> Field.truthy (password body) = true ->
   ((exists u, u ∈ users st /\ User.email u.2 = Some e) ->
    V2.signup body st = (Json 400 (Message "User already exists"), st)) /\
   ((forall u, u ∈ users st -> User.email u.2 <> Some e) ->
    V2.signup body st
    = (Json 200 (Message "Signup successful"),
       saveUser (User.mk (stored (role body)) (stored (name body)) (Some e)
                         (Some (hashSync (Field.toString (password body))))) st) /\
    forall body',
      Field.truthy (role body') = true -> Field.truthy (name body') = true ->
      Field.truthy (email body') = true -> Field.truthy (password body') = true ->
      toLowerCase (Field.toString (email body')) = e ->
      V2.signup body' (V2.signup body st).2
      = (Json 400 (Message "User already exists"), (V2.signup body st).2))) /\
  (forall u e0,
     u ∈ users st -> User.email u.2 = Some e0 -> toLowerCase e0 = e0 ->
     toLowerCase (Field.toString (email body)) = toLowerCase e0 ->
     exists m, V2.signup body st = (Json 400 (Message m), st) /\
               (Field.truthy (role body) && Field.truthy (name body)
                && Field.truthy (email body) && Field.truthy (password body) = true ->
                m = "User already exists"%string)).
Proof.
  intros e. split_and!.
  - intros u Hu. destruct (V2_signup_users body st) as [Heq|Heq]; rewrite Heq in Hu.
    + by left.
    + apply elem_of_app in Hu as [Hu|Hu]; [by left|].
      apply list_elem_of_singleton in Hu as ->. by right.
  - intros Hr Hn He Hp. rewrite (V2_signup_present body st Hr Hn He Hp). fold e.
    split.
    + intros (u & Hu & Hue).
      by destruct (findOne_hasEmail_Some (Some e) (users st) u Hu Hue) as [u' ->].
    + intros Hfree. apply findOne_hasEmail_free in Hfree. rewrite Hfree.
      split; [reflexivity|].
      intros body' Hr' Hn' He' Hp' Hsame.
      rewrite (V2_signup_present body' _ Hr' Hn' He' Hp'). rewrite Hsame.
      cbn [snd].
      destruct (findOne_hasEmail_Some (Some e) (users (saveUser
                  (User.mk (stored (role body)) (stored (name body)) (Some e)
                     (Some (hashSync (Field.toString (password body))))) st))
                  (nextId st, User.mk (stored (role body)) (stored (name body)) (Some e)
                     (Some (hashSync (Field.toString (password body))))))
        as [u' ->]; [|reflexivity|reflexivity].
      rewrite saveUser_users. apply elem_of_app. right. apply list_elem_of_here.
  - intros u e0 Hu He0 Hlow Hsame. unfold V2.signup.
    destruct (Field.truthy (role body)), (Field.truthy (name body)),
             (Field.truthy (email body)), (Field.truthy (password body)); simpl;
      try (eexists; split; [reflexivity | discriminate]).
    destruct (findOne_hasEmail_Some (Some (toLowerCase (Field.toString (email body))))
                (users st) u Hu) as [u' ->].
    { rewrite He0, Hsame. by rewrite Hlow. }
    eexists. split; [reflexivity | done].
Qed.

Lemma signup_normalizes_email_witness :
  V2.signup (H := demoEnv) (studentSignup "Alice@X.com" "pw") registered
  = (Json 400 (Message "User already exists"), registered) /\
  V2.signup (H := demoEnv) (studentSignup "BOB@x.com" "pw")
    (V2.signup (H := demoEnv) (studentSignup "Bob@X.com" "pw") registered).2
  = (Json 400 (Message "User already exists"),
     (V2.signup (H := demoEnv) (studentSignup "Bob@X.com" "pw") registered).2) /\
  users (V2.signup (H := demoEnv) (studentSignup "Bob@X.com" "pw") registered).2
  = users registered
    ++ [(1, User.mk (Some "student") (Some "Alice") (Some "bob@x.com") (Some "hash:pw"))].
Proof.
  split_and!.
  - pose proof (signup_normalizes_email (H := demoEnv)
        (studentSignup "Alice@X.com" "pw") registered) as (_ & _ & H3).
    destruct (H3 (0, User.mk (Some "student") (Some "Alice") (Some "alice@x.com")
                             (Some "hash:secret")) "alice@x.com"%string)
      as (m & Hm & Hmsg).
    + apply list_elem_of_here.
    + reflexivity.
    + reflexivity.
    + reflexivity.
    + rewrite Hm. by rewrite (Hmsg eq_refl).
  - pose proof (signup_normalizes_email (H := demoEnv)
        (studentSignup "Bob@X.com" "pw") registered) as (_ & H2 & _).
    destruct (H2 eq_refl eq_refl eq_refl eq_refl) as (_ & Hfree).
    destruct Hfree as (_ & Hnext).
    + intros u Hu. apply list_elem_of_singleton in Hu as ->. discriminate.
    + apply (Hnext (studentSignup "BOB@x.com" "pw")); reflexivity.
  - pose proof (signup_normalizes_email (H := demoEnv)
        (studentSignup "Bob@X.com" "pw") registered) as (_ & H2 & _).
    destruct (H2 eq_refl eq_refl eq_refl eq_refl) as (_ & Hfree).
    destruct Hfree as (Hok & _).
    + intros u Hu. apply list_elem_of_singleton in Hu as ->. discriminate.
    + rewrite Hok. reflexivity.
Defined.

(** C4 fails as stated: variant 1 stores the email as supplied and has no
    check of its own, so an email that differs only in letter case from a
    stored one is accepted and a second user is stored; and variant 2,
    run on a user variant 1 stored, compares the lowercased email with the
    stored mixed-case one and accepts as well. *)
Lemma signup_normalizes_email_counterexample :
  let admin := Some "Bearer admin-token"%string in
  let first := V1.signup (H := demoEnv) admin (studentSignup "Alice@X.com" "pw") registered in
  let legacy := (V1.signup (H := demoEnv) admin (studentSignup "Bob@X.com" "pw") emptyStore).2 in
  let second := V2.signup (H := demoEnv) (studentSignup "bob@x.com" "pw") legacy in
  AsciiText.toLowerCase "Alice@X.com" = AsciiText.toLowerCase "alice@x.com" /\
  first.1 = Json 200 (Message "User created") /\
  users first.2
  = users registered
    ++ [(1, User.mk (Some "student") (Some "Alice") (Some "Alice@X.com") (Some "hash:pw"))] /\
  AsciiText.toLowerCase "bob@x.com" = AsciiText.toLowerCase "Bob@X.com" /\
  users legacy
  = [(0, User.mk (Some "student") (Some "Alice") (Some "Bob@X.com") (Some "hash:pw"))] /\
  second.1 = Json 200 (Message "Signup successful") /\
  length (users second.2) = 2.
Proof. split_and!; vm_compute; reflexivity. Qed.

(** * Further properties of the handlers *)

(** ** Well-formed collections *)

Lemma wfStore_unfold st :
  wfStore st <->
  wfColl (nextId st) (users st) /\ wfColl (nextId st) (faculties st) /\
  wfColl (nextId st) (grades st) /\ wfColl (nextId st) (classrooms st) /\
  wfColl (nextId st) (labs st) /\ wfColl (nextId st) (subjects st) /\
  wfColl (nextId st) (schedules st) /\ wfColl (nextId st) (swaps st) /\
  wfColl (nextId st) (leaves st) /\ wfColl (nextId st) (feedbacks st).
Proof.
  unfold wfStore. split.
  - intros [Hu Hd]. split; [exact Hu|].
    split_and!; [apply (Hd MFaculty) | apply (Hd MGrade) | apply (Hd MClassroom)
                | apply (Hd MLab) | apply (Hd MSubject) | apply (Hd MSchedule)
                | apply (Hd MSwap) | apply (Hd MLeave) | apply (Hd MFeedback)].
  - intros (Hu & H1 & H2 & H3 & H4 & H5 & H6 & H7 & H8 & H9).
    split; [exact Hu|]. intros m. by destruct m.
Qed.

#[local] Arguments withIds : simpl never.
#[local] Arguments deleteMany : simpl never.
#[local] Arguments findOneAndUpdate : simpl never.

(** ** What each handler writes *)

Lemma deleteById_store m id st :
  (deleteById m id st).2 = setDocuments m (findByIdAndDelete id (documents m st)).2 st.
Proof. unfold deleteById. by destruct (findByIdAndDelete id (documents m st)). Qed.

Lemma putDocument_store m id body st :
  (putDocument m id body st).2
  = setDocuments m (findByIdAndUpdate id (assign m body) (documents m st)).2 st.
Proof.
  unfold putDocument.
  by destruct (findByIdAndUpdate id (assign m body) (documents m st)).
Qed.

Lemma reject_store id st :
  (reject id st).2
  = setSwaps (findByIdAndUpdate id (Swap.setStatus (Some "rejected")) (swaps st)).2 st.
Proof.
  unfold reject.
  by destruct (findByIdAndUpdate id (Swap.setStatus (Some "rejected")) (swaps st)).
Qed.

Lemma approve_store id st :
  exists scs,
    (approve id st).2
    = setSchedules scs
        (setSwaps (findByIdAndUpdate id (Swap.setStatus (Some "approved")) (swaps st)).2 st).
Proof.
  unfold approve.
  destruct (findByIdAndUpdate id (Swap.setStatus (Some "approved")) (swaps st))
    as [[swap|] rest]; simpl.
  - destruct (JsString.truthy (Swap.toFaculty swap.2)).
    + by eexists.
    + exists (schedules st). by destruct st.
  - exists (schedules st). by destruct st.
Qed.

(** A route with an [:id] either throws on the parameter and writes
    nothing, or runs its handler on the id the parameter stands for. *)
Lemma withId_cases `{Env} {A} param (h : ObjectId -> Store -> outcome A * Store) st :
  (castObjectId param = None /\ withId param h st = (Rejected CastError, st)) \/
  exists id, castObjectId param = Some id /\ withId param h st = h id st.
Proof.
  unfold withId. destruct (castObjectId param) as [id|]; [right; by exists id | by left].
Qed.

Lemma users_setDocuments m c st : users (setDocuments m c st) = users st.
Proof. by destruct st, m. Qed.

Lemma leaves_setDocuments m c st :
  m <> MLeave -> leaves (setDocuments m c st) = leaves st.
Proof. intros Hm. by destruct st, m. Qed.

Section AuthStores.
Context `{Env}.

Lemma V1_login_store body st : (V1.login body st).2 = st.
Proof. unfold V1.login. by repeat case_match. Qed.

Lemma V2_login_store body st : (V2.login body st).2 = st.
Proof. unfold V2.login. by repeat case_match. Qed.

(** A signup of variant 1 writes nothing or saves one user, and saves it
    only for a token that decodes to an admin and an email no stored user
    carries. *)
Lemma V1_signup_store authorization body st :
  (V1.signup authorization body st).2 = st \/
  exists pw decoded,
    V1.verifyToken authorization = inr decoded /\
    Jwt.role decoded = Some "admin" /\
    password body = Val pw /\
    findOne (hasEmail (stored (email body))) (users st) = None /\
    V1.signup authorization body st
    = (Json 200 (Message "User created"),
       saveUser (User.mk (stored (role body)) (stored (name body))
                         (stored (email body)) (Some (hashSync pw))) st).
Proof.
  unfold V1.signup.
  destruct (V1.verifyToken authorization) as [resp|decoded]; [by left|].
  destruct (decide (Jwt.role decoded <> Some "admin")) as [|Hadmin]; [by left|].
  apply dec_stable in Hadmin.
  destruct (password body) as [| |pw]; [by left.. |].
  destruct (findOne (hasEmail (stored (email body))) (users st)) eqn:Hfree; [by left|].
  right. by exists pw, decoded.
Qed.

(** A signup of variant 2 writes nothing or saves one user under the
    lowercased email, which no stored user carried. *)
Lemma V2_signup_store body st :
  (V2.signup body st).2 = st \/
  (findOne (hasEmail (Some (toLowerCase (Field.toString (email body))))) (users st) = None /\
   Field.truthy (role body) && Field.truthy (name body) && Field.truthy (email body)
     && Field.truthy (password body) = true /\
   V2.signup body st
   = (Json 200 (Message "Signup successful"),
      saveUser (User.mk (stored (role body)) (stored (name body))
                        (Some (toLowerCase (Field.toString (email body))))
                        (Some (hashSync (Field.toString (password body))))) st)).
Proof.
  unfold V2.signup.
  destruct (Field.truthy (role body)), (Field.truthy (name body)),
           (Field.truthy (email body)), (Field.truthy (password body)); simpl; try by left.
  destruct (findOne _ (users st)) eqn:Hfree; [by left|].
  right. done.
Qed.

End AuthStores.

(** ** The route tables *)

Lemma findOne_hasEmail_None e (c : collection User.doc) :
  findOne (hasEmail e) c = None <-> e ∉ (fun u => User.email u.2) <$> c.
Proof.
  unfold findOne. rewrite fmap_None, list_find_None, Forall_forall. split.
  - intros Hn (u & -> & Hu)%list_elem_of_fmap. by apply (Hn u Hu).
  - intros Hn u Hu He. apply Hn. apply list_elem_of_fmap. by exists u.
Qed.

Lemma uniqueEmails_saveUser u st :
  findOne (hasEmail (User.email u)) (users st) = None ->
  uniqueEmails (users st) -> uniqueEmails (users (saveUser u st)).
Proof.
  intros Hfree%findOne_hasEmail_None Hun. rewrite saveUser_users.
  unfold uniqueEmails in *. rewrite fmap_app. apply NoDup_app.
  split_and!; [exact Hun | | apply NoDup_singleton].
  intros e He ->%list_elem_of_singleton. by apply Hfree.
Qed.

Section RouterFacts.
Context `{Env}.

(** Apart from a signup that succeeds, no route of variant 1 writes the
    users. *)
Lemma V1_step_users r st :
  users (V1.step r st) = users st \/
  exists u, V1.step r st = saveUser u st /\
            findOne (hasEmail (User.email u)) (users st) = None.
Proof.
  destruct r as [a b|b|m|m b|m id b|m id|G L| |id|id]; simpl.
  - destruct (V1_signup_store a b st) as [->|(pw & d & _ & _ & _ & Hfree & ->)];
      [by left|]. right. by eexists.
  - left. by rewrite V1_login_store.
  - by left.
  - left. case_bool_decide; [|done]. by destruct st, m.
  - left. case_bool_decide; [|done]. unfold putRequest.
    destruct (withId_cases id (fun k => putDocument m k b) st) as [[_ ->]|(k & _ & ->)];
      [done|]. rewrite putDocument_store. apply users_setDocuments.
  - left. case_bool_decide; [|done]. unfold deleteRequest.
    destruct (withId_cases id (deleteById m) st) as [[_ ->]|(k & _ & ->)]; [done|].
    rewrite deleteById_store. apply users_setDocuments.
  - left. by destruct st.
  - left. by destruct st.
  - left. unfold approveRequest.
    destruct (withId_cases id approve st) as [[_ ->]|(k & _ & ->)]; [done|].
    destruct (approve_store k st) as [scs ->]. by destruct st.
  - left. unfold rejectRequest.
    destruct (withId_cases id reject st) as [[_ ->]|(k & _ & ->)]; [done|].
    rewrite reject_store. by destruct st.
Qed.

(** The same for variant 2, where the saved email is in lower case. *)
Lemma V2_step_users r st :
  users (V2.step r st) = users st \/
  exists u e, V2.step r st = saveUser u st /\
              User.email u = Some (toLowerCase e) /\
              findOne (hasEmail (User.email u)) (users st) = None.
Proof.
  destruct r as [b|b|m|m b|m id b|m id|G L| |id|id]; simpl.
  - destruct (V2_signup_store b st) as [->|(Hfree & _ & ->)]; [by left|].
    right. by eexists _, _.
  - left. by rewrite V2_login_store.
  - by left.
  - left. case_bool_decide; [|done]. by destruct st, m.
  - left. case_bool_decide; [|done]. unfold putRequest.
    destruct (withId_cases id (fun k => putDocument m k b) st) as [[_ ->]|(k & _ & ->)];
      [done|]. rewrite putDocument_store. apply users_setDocuments.
  - left. case_bool_decide; [|done]. unfold deleteRequest.
    destruct (withId_cases id (deleteById m) st) as [[_ ->]|(k & _ & ->)]; [done|].
    rewrite deleteById_store. apply users_setDocuments.
  - left. by destruct st.
  - left. by destruct st.
  - left. unfold approveRequest.
    destruct (withId_cases id approve st) as [[_ ->]|(k & _ & ->)]; [done|].
    destruct (approve_store k st) as [scs ->]. by destruct st.
  - left. unfold rejectRequest.
    destruct (withId_cases id reject st) as [[_ ->]|(k & _ & ->)]; [done|].
    rewrite reject_store. by destruct st.
Qed.

End RouterFacts.

(** X2. No route edits or removes a user: after any request of either
    route table the users stored before are still there, unchanged and in
    their order, followed by at most one new user. *)
Theorem routes_only_add_users `{Env} (st : Store) :
  (forall r, exists new, users (V1.step r st) = users st ++ new /\ length new <= 1) /\
  (forall r, exists new, users (V2.step r st) = users st ++ new /\ length new <= 1).
Proof.
  split; intros r.
  - destruct (V1_step_users r st) as [->|(u & -> & _)].
    + exists []. rewrite app_nil_r. split; [done | simpl; lia].
    + eexists. split; [apply saveUser_users | simpl; lia].
  - destruct (V2_step_users r st) as [->|(u & e & -> & _)].
    + exists []. rewrite app_nil_r. split; [done | simpl; lia].
    + eexists. split; [apply saveUser_users | simpl; lia].
Qed.

(** X3. The unique index on the email holds along every route: when no
    two stored users share an email, none do after any request of either
    route table, nor after the seeding of the demo accounts. *)
Theorem routes_keep_emails_unique `{Env} (st : Store) :
  uniqueEmails (users st) ->
  (forall r, uniqueEmails (users (V1.step r st))) /\
  (forall r, uniqueEmails (users (V2.step r st))) /\
  uniqueEmails (users (V2.seedDefaultAccounts st)).
Proof.
  intros Hun. split_and!.
  - intros r. destruct (V1_step_users r st) as [->|(u & -> & Hfree)]; [done|].
    by apply uniqueEmails_saveUser.
  - intros r. destruct (V2_step_users r st) as [->|(u & e & -> & _ & Hfree)]; [done|].
    by apply uniqueEmails_saveUser.
  - unfold V2.seedDefaultAccounts.
    set (st1 := match findOne _ (users st) with Some _ => st | None => _ end).
    assert (uniqueEmails (users st1)) as Hun1.
    { subst st1. destruct (findOne _ (users st)) eqn:Hf; [done|].
      by apply uniqueEmails_saveUser. }
    destruct (findOne _ (users st1)) eqn:Hf; [done|].
    by apply uniqueEmails_saveUser.
Qed.

Lemma routes_keep_emails_unique_witness :
  uniqueEmails (users registered) /\
  uniqueEmails
    (users (V1.step (H := demoEnv)
              (V1.Signup (Some "Bearer admin-token") (studentSignup "Alice@X.com" "pw"))
              registered)) /\
  uniqueEmails
    (users (V2.step (H := demoEnv) (V2.Signup (studentSignup "Alice@X.com" "pw"))
              registered)) /\
  uniqueEmails (users (V2.seedDefaultAccounts (H := demoEnv) registered)).
Proof.
  assert (Hun : uniqueEmails (users registered)).
  { refine (bool_decide_unpack _ _); vm_compute; exact I. }
  pose proof (routes_keep_emails_unique (H := demoEnv) registered Hun) as (H1 & H2 & H3).
  split_and!; [exact Hun | apply H1 | apply H2 | exact H3].
Defined.

(** X4. Variant 2 keeps the stored emails in lower case, [toLowerCase]
    leaving its own results as they are: when every stored email is its
    own lower-case form, it is so after any request of the route table,
    and after the seeding of the demo accounts, whose two emails are in
    lower case. *)
Theorem V2_routes_keep_emails_lowercase `{Env} (st : Store) :
  (forall s, toLowerCase (toLowerCase s) = toLowerCase s) ->
  toLowerCase "student@smartclass.com" = "student@smartclass.com"%string ->
  toLowerCase "admin@smartclass.com" = "admin@smartclass.com"%string ->
  lowercaseEmails (users st) ->
  (forall r, lowercaseEmails (users (V2.step r st))) /\
  lowercaseEmails (users (V2.seedDefaultAccounts st)).
Proof.
  intros Hidem Hs Ha Hlow. split.
  - intros r. destruct (V2_step_users r st) as [->|(u & e & -> & He & _)]; [done|].
    rewrite saveUser_users. apply Forall_app. split; [done|].
    apply Forall_singleton. exists (toLowerCase e). split; [exact He|].
    apply Hidem.
  - by apply seedDefaultAccounts_lowercase.
Qed.

Lemma V2_routes_keep_emails_lowercase_witness :
  lowercaseEmails (H := demoEnv) (users registered) /\
  lowercaseEmails (H := demoEnv)
    (users (V2.step (H := demoEnv) (V2.Signup (studentSignup "Bob@X.com" "pw")) registered)) /\
  users (V2.step (H := demoEnv) (V2.Signup (studentSignup "Bob@X.com" "pw")) registered)
  = users registered
    ++ [(1, User.mk (Some "student") (Some "Alice") (Some "bob@x.com") (Some "hash:pw"))].
Proof.
  assert (Hlow : lowercaseEmails (H := demoEnv) (users registered)).
  { apply Forall_singleton. by eexists. }
  pose proof (V2_routes_keep_emails_lowercase (H := demoEnv) registered
                toLowerCase_idemp eq_refl eq_refl Hlow) as (H1 & _).
  split_and!; [exact Hlow | apply H1 | reflexivity].
Defined.

(** X5. Variant 2 defines the Leave model and registers no route on it:
    no request of its route table changes the stored leaves. *)
Theorem V2_routes_leave_leaves `{Env} (r : V2.request) (st : Store) :
  leaves (V2.step r st) = leaves st.
Proof.
  destruct r as [b|b|m|m b|m id b|m id|G L| |id|id]; simpl.
  - destruct (V2_signup_store b st) as [->|(_ & _ & ->)]; [done | by destruct st].
  - by rewrite V2_login_store.
  - done.
  - case_bool_decide as Hm; [|done].
    assert (m <> MLeave) as Hne.
    { intros ->. revert Hm. refine (bool_decide_unpack _ _); vm_compute; exact I. }
    destruct st, m; done.
  - case_bool_decide as Hm; [|done]. unfold putRequest.
    destruct (withId_cases id (fun k => putDocument m k b) st) as [[_ ->]|(k & _ & ->)];
      [done|]. rewrite putDocument_store.
    apply leaves_setDocuments. intros ->. revert Hm.
    refine (bool_decide_unpack _ _); vm_compute; exact I.
  - case_bool_decide as Hm; [|done]. unfold deleteRequest.
    destruct (withId_cases id (deleteById m) st) as [[_ ->]|(k & _ & ->)]; [done|].
    rewrite deleteById_store.
    apply leaves_setDocuments. intros ->. revert Hm.
    refine (bool_decide_unpack _ _); vm_compute; exact I.
  - by destruct st.
  - by destruct st.
  - unfold approveRequest.
    destruct (withId_cases id approve st) as [[_ ->]|(k & _ & ->)]; [done|].
    destruct (approve_store k st) as [scs ->]. by destruct st.
  - unfold rejectRequest.
    destruct (withId_cases id reject st) as [[_ ->]|(k & _ & ->)]; [done|].
    rewrite reject_store. by destruct st.
Qed.

(** ** Lookups by id across a write *)

Section ByIdFacts.
Context {A : Type}.
Implicit Types (c : collection A) (e : ObjectId * A).

Lemma findById_cons id e c :
  findById id (e :: c) = if decide (e.1 = id) then Some e else findById id c.
Proof.
  unfold findById. simpl. unfold hasId at 1.
  destruct (decide (e.1 = id)); [done|].
  by destruct (list_find (hasId id) c) as [[i x]|].
Qed.

Lemma findById_app_l id c c' e :
  findById id c = Some e -> findById id (c ++ c') = Some e.
Proof.
  intros [i Hf]%findById_Some. apply findById_Some. exists i.
  by apply list_find_app_l.
Qed.

Lemma findById_app_r id c c' :
  findById id c = None -> findById id (c ++ c') = findById id c'.
Proof.
  intros Hn%findById_None. unfold findById.
  rewrite list_find_app_r by done.
  by destruct (list_find (hasId id) c') as [[i x]|].
Qed.

Lemma findById_fresh n c : idsBelow n c -> findById n c = None.
Proof.
  intros Hb. apply findById_absent. unfold idsBelow in Hb.
  rewrite Forall_forall in Hb. intros e He Heq. specialize (Hb e He). simpl in Hb.
  unfold ObjectId in *. lia.
Qed.

(** Rewriting the document at one position leaves the lookups of the
    other ids as they were. *)
Lemma findById_insert_other id c i e e' :
  c !! i = Some e -> e.1 <> id -> e'.1 <> id ->
  findById id (<[i := e']> c) = findById id c.
Proof.
  revert i. induction c as [|a c IH]; intros i Hi He He'; [done|].
  destruct i as [|i]; simpl in *.
  - injection Hi as ->. rewrite !findById_cons.
    by rewrite !decide_False by done.
  - rewrite !findById_cons. destruct (decide (a.1 = id)); [done|]. by eapply IH.
Qed.

Lemma findById_delete_other id c i e :
  c !! i = Some e -> e.1 <> id -> findById id (delete i c) = findById id c.
Proof.
  revert i. induction c as [|a c IH]; intros i Hi He; [done|].
  destruct i as [|i]; simpl in *.
  - injection Hi as ->. rewrite findById_cons. by rewrite decide_False by done.
  - rewrite !findById_cons. destruct (decide (a.1 = id)); [done|]. by eapply IH.
Qed.

(** Once the document is removed, its id is no longer stored. *)
Lemma findById_delete_same id c i e :
  NoDup c.*1 -> c !! i = Some e -> e.1 = id -> findById id (delete i c) = None.
Proof.
  intros Hnd Hi He. apply findById_absent. intros x Hx Hxid.
  apply list_elem_of_lookup in Hx as [j Hj].
  assert (c.*1 !! i = Some id) as Hi'.
  { rewrite list_lookup_fmap, Hi. simpl. by rewrite He. }
  destruct (decide (j < i)) as [Hlt|Hge].
  - rewrite list_lookup_delete_lt in Hj by done.
    assert (c.*1 !! j = Some id) as Hj'.
    { rewrite list_lookup_fmap, Hj. simpl. by rewrite Hxid. }
    pose proof (NoDup_lookup _ _ _ _ Hnd Hi' Hj'). lia.
  - rewrite list_lookup_delete_ge in Hj by lia.
    assert (c.*1 !! S j = Some id) as Hj'.
    { rewrite list_lookup_fmap, Hj. simpl. by rewrite Hxid. }
    pose proof (NoDup_lookup _ _ _ _ Hnd Hi' Hj'). lia.
Qed.

Lemma list_find_hasId_insert id c i d d' :
  list_find (hasId id) c = Some (i, (id, d)) ->
  list_find (hasId id) (<[i := (id, d')]> c) = Some (i, (id, d')).
Proof.
  intros (Hi & _ & Hleast)%list_find_Some. apply list_find_insert_Some.
  right; left. split_and!; try done. by eapply lookup_lt_Some.
Qed.

(** Two updates of the same id are the update by the composed change. *)
Lemma findByIdAndUpdate_twice id (f g : A -> A) c :
  findByIdAndUpdate id f (findByIdAndUpdate id g c).2
  = findByIdAndUpdate id (fun d => f (g d)) c.
Proof.
  unfold findByIdAndUpdate at 2 3.
  destruct (list_find (hasId id) c) as [[i [k d]]|] eqn:Hf; simpl.
  - pose proof Hf as (_ & Hk & _)%list_find_Some. unfold hasId in Hk. simpl in Hk. subst k.
    unfold findByIdAndUpdate.
    rewrite (list_find_hasId_insert id c i d (g d) Hf). simpl.
    by rewrite list_insert_insert_eq.
  - unfold findByIdAndUpdate. by rewrite Hf.
Qed.

Lemma findByIdAndUpdate_ext id (f g : A -> A) c :
  (forall d, f d = g d) -> findByIdAndUpdate id f c = findByIdAndUpdate id g c.
Proof.
  intros Hfg. unfold findByIdAndUpdate.
  destruct (list_find (hasId id) c) as [[i e]|]; [|done]. by rewrite Hfg.
Qed.

Lemma findByIdAndUpdate_ids id (f : A -> A) c :
  (findByIdAndUpdate id f c).2.*1 = c.*1.
Proof.
  unfold findByIdAndUpdate.
  destruct (list_find (hasId id) c) as [[i e]|] eqn:Hf; [|done]. simpl.
  apply list_find_Some in Hf as (Hi & _ & _).
  rewrite list_fmap_insert. simpl. apply list_insert_id.
  by rewrite list_lookup_fmap, Hi.
Qed.

Lemma findByIdAndUpdate_other id id' (f : A -> A) c :
  id' <> id -> findById id' (findByIdAndUpdate id f c).2 = findById id' c.
Proof.
  intros Hne. unfold findByIdAndUpdate.
  destruct (list_find (hasId id) c) as [[i e]|] eqn:Hf; [|done]. simpl.
  apply list_find_Some in Hf as (Hi & He & _). unfold hasId in He.
  eapply findById_insert_other; [exact Hi | congruence | simpl; congruence].
Qed.

Lemma deleteMany_all c : deleteMany (fun _ => True) c = [].
Proof.
  unfold deleteMany. induction c as [|e c IH]; [done|].
  rewrite filter_cons_False; [exact IH | tauto].
Qed.

End ByIdFacts.

Lemma documents_setDocuments m c st : documents m (setDocuments m c st) = c.
Proof. by destruct st, m. Qed.

Lemma documents_setDocuments_ne m m' c st :
  m' <> m -> documents m' (setDocuments m c st) = documents m' st.
Proof. intros Hne. destruct st, m, m'; done. Qed.

Lemma documents_setNextId m n st : documents m (setNextId n st) = documents m st.
Proof. by destruct st, m. Qed.

Lemma setDocuments_id m st : setDocuments m (documents m st) st = st.
Proof. by destruct st, m. Qed.

Lemma wfStore_documents m st : wfStore st -> wfColl (nextId st) (documents m st).
Proof. intros [_ Hd]. apply Hd. Qed.

(** ** List, create, update and delete *)

(** X6. Create then read: [POST /<entity>] answers the document made of
    the body (a field the body carries with a value has it, a field that
    is [null] or absent has none, but for the schema's default on an
    absent field) under an id that no document of the collection had; a
    following [GET /<entity>] lists the former documents followed by the
    new one, the new id finds it, the former ids find what they found,
    and the other collections are as before. *)
Theorem postDocument_round_trip (m : model) (body : bodyOf m) (st : Store) :
  wfStore st ->
  exists id,
    let e := (id, construct m body) in
    let st' := (postDocument m body st).2 in
    findById id (documents m st) = None /\
    (postDocument m body st).1 = Json 200 e /\
    (getAll m st').1 = Json 200 (documents m st ++ [e]) /\
    findById id (documents m st') = Some e /\
    (forall id' d, findById id' (documents m st) = Some d ->
                   findById id' (documents m st') = Some d) /\
    (forall m', m' <> m -> documents m' st' = documents m' st).
Proof.
  intros Hwf. exists (nextId st). intros e st'.
  assert (Hfresh : findById (nextId st) (documents m st) = None).
  { apply findById_fresh. apply (wfStore_documents m st Hwf). }
  assert (Hdocs : documents m st' = documents m st ++ [e]).
  { subst st'. unfold postDocument. simpl.
    by rewrite documents_setNextId, documents_setDocuments. }
  split_and!.
  - exact Hfresh.
  - done.
  - unfold getAll. simpl. by rewrite Hdocs.
  - rewrite Hdocs. rewrite findById_app_r by exact Hfresh.
    rewrite findById_cons. by rewrite decide_True.
  - intros id d Hd. rewrite Hdocs. by apply findById_app_l.
  - intros m' Hne. subst st'. unfold postDocument. simpl.
    by rewrite documents_setNextId, documents_setDocuments_ne.
Qed.

Lemma postDocument_round_trip_witness :
  wfStore scenario /\
  exists id,
    (getAll MLeave
       (postDocument MLeave (Leave.Body.mk (Val "Alice") (Val "Mon") (Val "Tue")
                                           Null Undefined) scenario).2).1
    = Json 200 [(id, Leave.mk (Some "Alice") (Some "Mon") (Some "Tue") None
                              (Some "pending"))].
Proof.
  assert (Hwf : wfStore scenario).
  { apply wfStore_unfold. split_and!; refine (bool_decide_unpack _ _); vm_compute; exact I. }
  split; [exact Hwf|].
  destruct (postDocument_round_trip MLeave
              (Leave.Body.mk (Val "Alice") (Val "Mon") (Val "Tue") Null Undefined)
              scenario Hwf) as (id & _ & _ & H3 & _).
  exists id. exact H3.
Defined.

(** X7. Update by id, [PUT /<entity>/:id] with a body of fields of the
    schema: a parameter that is no ObjectId makes the query throw and
    nothing is written; for an id that is not stored the answer is [null]
    and nothing is written; for a stored one the answer, and what is
    stored, is the document with the fields the body carries set to the
    body's value, or to no value where the body has [null], and its other
    fields kept.  Either way the ids of the collection, the documents
    under other ids and the other collections are as before. *)
Theorem putDocument_updates `{Env}
    (m : model) (param : string) (body : bodyOf m) (st : Store) :
  let st' := (putRequest m param body st).2 in
  (castObjectId param = None ->
   putRequest m param body st = (Rejected CastError, st)) /\
  (forall id, castObjectId param = Some id ->
     (findById id (documents m st) = None ->
      putRequest m param body st = (Json 200 None, st)) /\
     (forall d, findById id (documents m st) = Some (id, d) ->
        (putRequest m param body st).1 = Json 200 (Some (id, assign m body d)) /\
        findById id (documents m st') = Some (id, assign m body d)) /\
     (forall id', id' <> id ->
        findById id' (documents m st') = findById id' (documents m st))) /\
  (documents m st').*1 = (documents m st).*1 /\
  (forall m', m' <> m -> documents m' st' = documents m' st).
Proof.
  intros st'. subst st'. unfold putRequest, withId.
  destruct (castObjectId param) as [id|]; [|by split_and!].
  rewrite putDocument_store. split_and!.
  - discriminate.
  - intros ? [= <-]. split_and!.
    + intros Hn. unfold putDocument.
      rewrite (findByIdAndUpdate_missing _ _ _ Hn). by rewrite setDocuments_id.
    + intros d Hd.
      destruct (findByIdAndUpdate_found id (assign m body) _ _ Hd)
        as (i & _ & Hupd & Hagain).
      unfold putDocument. rewrite Hupd. simpl. split; [done|].
      by rewrite documents_setDocuments.
    + intros id' Hne. rewrite documents_setDocuments.
      by apply findByIdAndUpdate_other.
  - rewrite documents_setDocuments. apply findByIdAndUpdate_ids.
  - intros m' Hne. by apply documents_setDocuments_ne.
Qed.

Lemma putDocument_updates_witness :
  let body := Schedule.Body.mk Undefined Undefined Null (Val "R2") Undefined Undefined in
  (putRequest (H := demoEnv) MSchedule "000000000000000000000000" body scenario).1
  = Json 200 (Some (0, Schedule.mk (Some "10A") (Some "Math") None (Some "R2")
                                   (Some "Mon") (Some "9am"))) /\
  putRequest (H := demoEnv) MSchedule "000000000000000000000007" body scenario
  = (Json 200 None, scenario) /\
  putRequest (H := demoEnv) MSchedule "7" body scenario = (Rejected CastError, scenario).
Proof.
  intros body.
  pose proof (putDocument_updates (H := demoEnv) MSchedule
                "000000000000000000000000" body scenario) as (_ & H0 & _).
  pose proof (putDocument_updates (H := demoEnv) MSchedule
                "000000000000000000000007" body scenario) as (_ & H7 & _).
  pose proof (putDocument_updates (H := demoEnv) MSchedule "7" body scenario) as (Hbad & _).
  split_and!.
  - destruct (H0 0 eq_refl) as (_ & Hfound & _).
    exact (proj1 (Hfound mondayClass eq_refl)).
  - destruct (H7 7 eq_refl) as (Hnone & _). exact (Hnone eq_refl).
  - exact (Hbad eq_refl).
Defined.

(** X9. Delete by a stored id: [DELETE /<entity>/:id] answers the
    document, after which the id is no longer stored, the other ids find
    what they found, the other collections are as before, and the same
    request sent again answers [null] and writes nothing. *)
Theorem deleteById_removes (m : model) (id : ObjectId) (d : docOf m) (st : Store) :
  wfStore st ->
  findById id (documents m st) = Some (id, d) ->
  let st' := (deleteById m id st).2 in
  (deleteById m id st).1 = Json 200 (Some (id, d)) /\
  findById id (documents m st') = None /\
  (forall id', id' <> id ->
     findById id' (documents m st') = findById id' (documents m st)) /\
  length (documents m st') + 1 = length (documents m st) /\
  (forall m', m' <> m -> documents m' st' = documents m' st) /\
  deleteById m id st' = (Json 200 None, st').
Proof.
  intros Hwf Hd st'.
  pose proof (wfStore_documents m st Hwf) as [Hnd _].
  apply findById_Some in Hd as [i Hf].
  pose proof Hf as (Hi & _ & _)%list_find_Some.
  assert (Hst' : st' = setDocuments m (delete i (documents m st)) st).
  { subst st'. rewrite deleteById_store. unfold findByIdAndDelete. by rewrite Hf. }
  assert (Hgone : findById id (documents m st') = None).
  { rewrite Hst', documents_setDocuments. by eapply findById_delete_same. }
  split_and!.
  - unfold deleteById, findByIdAndDelete. by rewrite Hf.
  - exact Hgone.
  - intros id' Hne. rewrite Hst', documents_setDocuments.
    eapply findById_delete_other; [exact Hi | simpl; congruence].
  - rewrite Hst', documents_setDocuments. rewrite length_delete by eauto.
    apply lookup_lt_Some in Hi. lia.
  - intros m' Hne. rewrite Hst'. by apply documents_setDocuments_ne.
  - unfold deleteById. rewrite (findByIdAndDelete_missing _ _ Hgone).
    by rewrite setDocuments_id.
Qed.

Lemma deleteById_removes_witness :
  wfStore scenario /\
  findById 1 (documents MSwap scenario) = Some (1, aliceToBob) /\
  (deleteById MSwap 1 scenario).1 = Json 200 (Some (1, aliceToBob)) /\
  findById 1 (documents MSwap (deleteById MSwap 1 scenario).2) = None.
Proof.
  assert (Hwf : wfStore scenario).
  { apply wfStore_unfold. split_and!; refine (bool_decide_unpack _ _); vm_compute; exact I. }
  pose proof (deleteById_removes MSwap 1 aliceToBob scenario Hwf eq_refl) as (H1 & H2 & _).
  split_and!; [exact Hwf | reflexivity | exact H1 | exact H2].
Defined.

(** ** The timetable, further *)

(** X10. [DELETE /schedules] removes every schedule entry of every grade:
    the schedules are empty afterwards, a following [GET /schedules] lists
    nothing, and the users, the counter and the other collections are as
    before. *)
Theorem clearSchedules_empties (st : Store) :
  let st' := (clearSchedules st).2 in
  (clearSchedules st).1 = Json 200 (Message "All schedules deleted") /\
  schedules st' = [] /\
  (getAll MSchedule st').1 = Json 200 [] /\
  users st' = users st /\ nextId st' = nextId st /\
  (forall m, m <> MSchedule -> documents m st' = documents m st).
Proof.
  intros st'. subst st'. unfold clearSchedules, getAll. simpl fst. simpl snd.
  rewrite deleteMany_all. split_and!; try by destruct st.
  intros m Hm. by apply (documents_setDocuments_ne MSchedule).
Qed.

Lemma clearSchedules_empties_witness :
  schedules (clearSchedules twoGrades).2 = [] /\
  documents MSwap (clearSchedules scenario).2 = [(1, aliceToBob)].
Proof.
  pose proof (clearSchedules_empties twoGrades) as (_ & H2 & _).
  pose proof (clearSchedules_empties scenario) as (_ & _ & _ & _ & _ & H6).
  split; [exact H2|]. rewrite (H6 MSwap); [reflexivity | discriminate].
Defined.

Lemma filter_withIds_other (G K : option string) n (L : list Schedule.doc) :
  K <> G -> Forall (fun d => Schedule.grade d = G) L ->
  filter (ofGrade K) (withIds n L) = [].
Proof.
  intros Hne Hall. revert n. induction Hall as [|d L Hd _ IH]; intros n; [done|].
  rewrite withIds_cons. rewrite filter_cons_False; [apply IH|].
  unfold ofGrade. simpl. congruence.
Qed.

(** X11. When every entry of the list carries the request's grade [G],
    [POST /schedules] leaves the timetable of every other grade exactly as
    it was: the same entries under the same ids in the same order. *)
Theorem postSchedules_other_grades
    (G K : option string) (L : list Schedule.doc) (st : Store) :
  Forall (fun d => Schedule.grade d = G) L ->
  K <> G ->
  filter (ofGrade K) (schedules (postSchedules G L st).2)
  = filter (ofGrade K) (schedules st).
Proof.
  intros Hall Hne. rewrite schedules_postSchedules, filter_app.
  rewrite (filter_withIds_other G K) by done. rewrite app_nil_r.
  rewrite list_filter_filter. apply list_filter_iff.
  intros e. unfold ofGrade. split; [tauto|]. intros He. split; [done | congruence].
Qed.

Lemma postSchedules_other_grades_witness :
  Forall (fun d => Schedule.grade d = Some "10-A") [lesson "10-A" "Physics"] /\
  filter (ofGrade (Some "9-B"))
    (schedules (postSchedules (Some "10-A") [lesson "10-A" "Physics"] twoGrades).2)
  = [(1, lesson "9-B" "Art")].
Proof.
  assert (Hall : Forall (fun d => Schedule.grade d = Some "10-A") [lesson "10-A" "Physics"]).
  { by repeat constructor. }
  split; [exact Hall|].
  rewrite (postSchedules_other_grades (Some "10-A") (Some "9-B") _ twoGrades Hall);
    [reflexivity | discriminate].
Defined.

(** ** Swap requests, further *)

Lemma slot_findOneAndUpdate (P : Schedule.doc -> Prop) `{!forall d, Decision (P d)}
    f (c : collection Schedule.doc) :
  slot <$> findOneAndUpdate P (Schedule.setFaculty f) c = slot <$> c.
Proof.
  unfold findOneAndUpdate.
  destruct (list_find (fun e => P e.2) c) as [[i e]|] eqn:Hf; [|done].
  apply list_find_Some in Hf as (Hi & _ & _).
  rewrite list_fmap_insert. apply list_insert_id.
  by rewrite list_lookup_fmap, Hi.
Qed.

(** X12. An approval touches the schedules in the faculty field only: the
    entries keep their ids, order, grade, subject, classroom, day and time,
    and no collection other than the swaps and the schedules, nor the
    counter, changes. *)
Theorem approve_frame (id : ObjectId) (st : Store) :
  let st' := (approve id st).2 in
  slot <$> schedules st' = slot <$> schedules st /\
  (swaps st').*1 = (swaps st).*1 /\
  users st' = users st /\ nextId st' = nextId st /\
  (forall m, m <> MSchedule -> m <> MSwap -> documents m st' = documents m st).
Proof.
  intros st'. subst st'. unfold approve.
  pose proof (findByIdAndUpdate_ids id (Swap.setStatus (Some "approved")) (swaps st))
    as Hids.
  destruct (findByIdAndUpdate id (Swap.setStatus (Some "approved")) (swaps st))
    as [[swap|] rest]; simpl in Hids.
  - destruct (JsString.truthy (Swap.toFaculty swap.2)); simpl.
    + split_and!; try by destruct st.
      * destruct st; simpl. apply slot_findOneAndUpdate.
      * intros m H1 H2. by destruct st, m.
    + split_and!; try by destruct st.
      intros m H1 H2. by destruct st, m.
  - split_and!; try by destruct st.
    intros m H1 H2. by destruct st, m.
Qed.

Lemma approve_frame_witness :
  slot <$> schedules (approve 1 scenario).2 = slot <$> schedules scenario /\
  documents MFaculty (approve 1 staff).2 = documents MFaculty staff.
Proof.
  pose proof (approve_frame 1 scenario) as (H1 & _).
  pose proof (approve_frame 1 staff) as (_ & _ & _ & _ & H5).
  split; [exact H1 | apply H5; discriminate].
Defined.

Lemma setSwaps_setSwaps c c' st : setSwaps c (setSwaps c' st) = setSwaps c st.
Proof. by destruct st. Qed.

(** X13. A rejection is not final: approving a request that was rejected
    answers and stores exactly what approving it in the first place would
    have, schedule change included. *)
Theorem approve_after_reject (id : ObjectId) (st : Store) :
  approve id (reject id st).2 = approve id st.
Proof.
  rewrite reject_store. unfold approve.
  replace (swaps (setSwaps _ st))
    with (findByIdAndUpdate id (Swap.setStatus (Some "rejected")) (swaps st)).2
    by (by destruct st).
  rewrite findByIdAndUpdate_twice.
  rewrite (findByIdAndUpdate_ext id _ (Swap.setStatus (Some "approved"))) by done.
  destruct (findByIdAndUpdate id (Swap.setStatus (Some "approved")) (swaps st))
    as [[swap|] rest]; rewrite setSwaps_setSwaps; [|done].
  destruct (JsString.truthy (Swap.toFaculty swap.2)); [|done].
  by destruct st.
Qed.

(** X14. A rejection does not undo an approval: rejecting a stored request
    after it was approved marks it "rejected" and leaves the schedules as
    the approval left them. *)
Theorem reject_after_approve (id : ObjectId) (R : Swap.doc) (st : Store) :
  findById id (swaps st) = Some (id, R) ->
  let st' := (reject id (approve id st).2).2 in
  (reject id (approve id st).2).1 = Json 200 (Some (id, Swap.setStatus (Some "rejected") R)) /\
  findById id (swaps st') = Some (id, Swap.setStatus (Some "rejected") R) /\
  schedules st' = schedules (approve id st).2.
Proof.
  intros Hfound st'.
  destruct (findByIdAndUpdate_found id (Swap.setStatus (Some "approved")) _ _ Hfound)
    as (i & Hi & Hupd & Hagain).
  assert (Hsw : swaps (approve id st).2
                = <[i := (id, Swap.setStatus (Some "approved") R)]> (swaps st)).
  { unfold approve. rewrite Hupd.
    destruct (JsString.truthy (Swap.toFaculty _)); by destruct st. }
  rewrite <- Hsw in Hagain.
  destruct (findByIdAndUpdate_found id (Swap.setStatus (Some "rejected")) _ _ Hagain)
    as (j & Hj & Hupd' & Hagain').
  subst st'. unfold reject. rewrite Hupd'. simpl.
  split_and!; [done | by destruct (approve id st).2 | by destruct (approve id st).2].
Qed.

Lemma reject_after_approve_witness :
  findById 1 (swaps scenario) = Some (1, aliceToBob) /\
  findById 1 (swaps (reject 1 (approve 1 scenario).2).2)
  = Some (1, Swap.setStatus (Some "rejected") aliceToBob) /\
  schedules (reject 1 (approve 1 scenario).2).2
  = [(0, Schedule.setFaculty (Some "Bob") mondayClass)].
Proof.
  pose proof (reject_after_approve 1 aliceToBob scenario eq_refl) as (_ & H2 & H3).
  split_and!; [reflexivity | exact H2 | rewrite H3; reflexivity].
Defined.

(** ** The token gates *)

Section SplitFacts.

Lemma split_without sep s : without sep s = true -> split sep s = [s].
Proof.
  induction s as [|c s IH]; [done|]. simpl.
  intros [Hc Hs]%andb_prop. apply negb_true_iff in Hc. rewrite Hc.
  by rewrite (IH Hs).
Qed.

Lemma split_app sep w r :
  without sep w = true ->
  split sep (w ++ String sep r)%string = w :: split sep r.
Proof.
  induction w as [|c w IH]; simpl.
  - intros _. by rewrite Ascii.eqb_refl.
  - intros [Hc Hw]%andb_prop. apply negb_true_iff in Hc. rewrite Hc.
    by rewrite (IH Hw).
Qed.

Lemma truthy_app_String w c r : truthy (Some (w ++ String c r)%string) = true.
Proof. by destruct w. Qed.

Lemma startsWith_app p r : startsWith p (p ++ r)%string = true.
Proof. induction p as [|c p IH]; [done|]. simpl. by rewrite Ascii.eqb_refl. Qed.

Lemma startsWith_inv p s :
  startsWith p s = true -> s = (p ++ slice (String.length p) s)%string.
Proof.
  revert s. induction p as [|c p IH]; intros s; [done|].
  destruct s as [|x s]; [done|]. simpl.
  intros [Hc Hp]%andb_prop. apply Ascii.eqb_eq in Hc as ->.
  change (String x s = String x (p ++ slice (String.length p) s)%string).
  f_equal. by apply IH.
Qed.

Lemma slice_app p r : slice (String.length p) (p ++ r)%string = r.
Proof. induction p as [|c p IH]; [by destruct r | exact IH]. Qed.

End SplitFacts.

(** X15. The gate of variant 1 never looks at the scheme of the header: it
    verifies whatever stands after the first blank.  Any word before the
    token does as well as "Bearer"; a header that is absent or empty is
    answered 401 "No token", one without a blank 401 "Invalid token". *)
Theorem V1_verifyToken_ignores_scheme `{Env} (scheme token : string) :
  without " " scheme = true ->
  without " " token = true ->
  V1.verifyToken (Some (scheme ++ " " ++ token)%string)
  = match verify token SECRET with
    | Some decoded => inr decoded
    | None => inl (Json 401 (Message "Invalid token"))
    end /\
  V1.verifyToken (Some token) = inl (Json 401 (Message (if String.eqb token "" then "No token" else "Invalid token"))) /\
  V1.verifyToken None = inl (Json 401 (Message "No token")).
Proof.
  intros Hs Ht. split_and!.
  - unfold V1.verifyToken. change (scheme ++ " " ++ token)%string
      with (scheme ++ String " " token)%string.
    rewrite truthy_app_String. cbn [negb toString].
    rewrite (split_app " " scheme token Hs), (split_without " " token Ht). simpl.
    by destruct (verify token SECRET).
  - unfold V1.verifyToken. simpl. destruct (String.eqb token "") eqn:He; [done|].
    simpl. by rewrite (split_without " " token Ht).
  - done.
Qed.

Lemma V1_verifyToken_ignores_scheme_witness :
  V1.verifyToken (H := demoEnv) (Some "Basic admin-token")
  = V1.verifyToken (H := demoEnv) (Some "Bearer admin-token") /\
  V1.verifyToken (H := demoEnv) (Some "admin-token")
  = inl (Json 401 (Message "Invalid token")).
Proof.
  pose proof (V1_verifyToken_ignores_scheme (H := demoEnv) "Basic" "admin-token"
                eq_refl eq_refl) as (H1 & H2 & _).
  pose proof (V1_verifyToken_ignores_scheme (H := demoEnv) "Bearer" "admin-token"
                eq_refl eq_refl) as (H3 & _).
  split; [exact (eq_trans H1 (eq_sym H3)) | exact H2].
Defined.

(** X16. The gate of variant 2 lets a request through exactly when its
    header is "Bearer " followed by a non-empty token that verifies; a
    header that is absent or does not start with "Bearer ", or carries no
    token, is answered 401 "No token provided". *)
Theorem V2_verifyToken_bearer `{Env} (authorization : option string) :
  (forall decoded,
     V2.verifyToken authorization = inr decoded <->
     exists token, authorization = Some ("Bearer " ++ token)%string /\
                   token <> ""%string /\ verify token SECRET = Some decoded) /\
  ((forall token, authorization = Some ("Bearer " ++ token)%string -> token = ""%string) ->
   V2.verifyToken authorization = inl (Json 401 (Message "No token provided"))).
Proof.
  assert (Hshape : forall h, startsWith "Bearer " h = true ->
            h = ("Bearer " ++ slice 7 h)%string).
  { intros h Hh. exact (startsWith_inv "Bearer " h Hh). }
  split.
  - intros decoded. split.
    + unfold V2.verifyToken. destruct authorization as [h|]; [|done].
      destruct (truthy (Some h)) eqn:Hh; cbn [toString]; [|done].
      destruct (startsWith "Bearer " h) eqn:Hb; [|done].
      destruct (truthy (Some (slice 7 h))) eqn:Ht; cbn [negb toString]; [|done].
      destruct (verify (slice 7 h) SECRET) as [d|] eqn:Hv; [|done].
      intros [= <-]. exists (slice 7 h). split_and!; [by rewrite <- Hshape | | exact Hv].
      apply truthy_Some in Ht as (s & [= <-] & Hne). exact Hne.
    + intros (token & -> & Hne & Hv). unfold V2.verifyToken.
      assert (Ht : truthy (Some ("Bearer " ++ token)%string) = true) by reflexivity.
      rewrite Ht. cbn [toString]. rewrite (startsWith_app "Bearer " token).
      assert (Hs : slice 7 ("Bearer " ++ token)%string = token) by reflexivity.
      rewrite Hs. destruct token as [|c t]; [done|].
      cbn [truthy String.eqb negb toString]. by rewrite Hv.
  - intros Hnone. unfold V2.verifyToken. destruct authorization as [h|]; [|done].
    destruct (truthy (Some h)); cbn [toString]; [|done].
    destruct (startsWith "Bearer " h) eqn:Hb; [|done].
    rewrite (Hnone (slice 7 h)); [done|]. f_equal. by apply Hshape.
Qed.

Lemma V2_verifyToken_bearer_witness :
  (exists decoded, V2.verifyToken (H := demoEnv) (Some "Bearer admin-token") = inr decoded) /\
  V2.verifyToken (H := demoEnv) (Some "Basic admin-token")
  = inl (Json 401 (Message "No token provided")).
Proof.
  pose proof (V2_verifyToken_bearer (H := demoEnv) (Some "Bearer admin-token")) as (H1 & _).
  pose proof (V2_verifyToken_bearer (H := demoEnv) (Some "Basic admin-token")) as (_ & H2).
  split.
  - eexists. apply H1. exists "admin-token"%string. split_and!; [reflexivity | discriminate | reflexivity].
  - apply H2. intros token Ht. discriminate Ht.
Defined.

Lemma V1_verifyToken_refusal `{Env} a r :
  V1.verifyToken a = inl r -> exists m, r = Json 401 (Message m).
Proof.
  unfold V1.verifyToken. repeat case_match; intros [= <-]; by eexists.
Qed.

(** X17. Signup of variant 1 is for admins only: unless the header carries
    a token that verifies to the role "admin", the request is answered 401
    or 403 and nothing is stored; and a user that is stored carries the
    hash of the supplied password. *)
Theorem V1_signup_admin_only `{Env}
    (authorization : option string) (body : credentials) (st : Store) :
  ((forall decoded, V1.verifyToken authorization = inr decoded ->
                    Jwt.role decoded <> Some "admin"%string) ->
   (V1.signup authorization body st).2 = st /\
   exists code m, (V1.signup authorization body st).1 = Json code (Message m) /\
                  (code = 401 \/ code = 403)) /\
  ((V1.signup authorization body st).2 <> st ->
   exists decoded pw,
     V1.verifyToken authorization = inr decoded /\
     Jwt.role decoded = Some "admin"%string /\
     password body = Val pw /\
     V1.signup authorization body st
     = (Json 200 (Message "User created"),
        saveUser (User.mk (stored (role body)) (stored (name body))
                          (stored (email body)) (Some (hashSync pw))) st)).
Proof.
  split.
  - intros Hno. unfold V1.signup.
    destruct (V1.verifyToken authorization) as [r|decoded] eqn:Hv.
    + destruct (V1_verifyToken_refusal _ _ Hv) as [m ->]. split; [done|].
      exists 401, m. by split; [|left].
    + rewrite decide_True by (by apply Hno). split; [done|].
      eexists 403, _. by split; [|right].
  - intros Hch.
    destruct (V1_signup_store authorization body st)
      as [Hst|(pw & decoded & Hv & Hr & Hp & _ & Heq)]; [done|].
    by exists decoded, pw.
Qed.

Lemma V1_signup_admin_only_witness :
  (V1.signup (H := demoEnv) (Some "Bearer guess") (studentSignup "eve@x.com" "pw") registered).2
  = registered /\
  exists code m,
    (V1.signup (H := demoEnv) (Some "Bearer guess") (studentSignup "eve@x.com" "pw")
       registered).1 = Json code (Message m) /\ (code = 401 \/ code = 403).
Proof.
  pose proof (V1_signup_admin_only (H := demoEnv) (Some "Bearer guess")
                (studentSignup "eve@x.com" "pw") registered) as (H1 & _).
  apply H1. intros decoded Hd. discriminate Hd.
Defined.

(** ** Signup and login together *)

Lemma findOne_isUser_saved e r n u (c : collection User.doc) :
  findOne (hasEmail e) c = None -> User.email u = e -> User.role u = r ->
  findOne (isUser e r) (c ++ [(n, u)]) = Some (n, u).
Proof.
  intros Hfree He Hr. unfold findOne in *.
  apply fmap_None in Hfree. rewrite list_find_None, Forall_forall in Hfree.
  rewrite list_find_app_r.
  - simpl. rewrite decide_True by done. done.
  - apply list_find_None, Forall_forall. intros x Hx [Hxe _]. by apply (Hfree x Hx).
Qed.

Section LoginFacts.
Context `{Env}.

Lemma V2_signup_success body st m :
  (V2.signup body st).1 = Json 200 (Message m) ->
  findOne (hasEmail (Some (toLowerCase (Field.toString (email body))))) (users st) = None /\
  Field.truthy (role body) = true /\ Field.truthy (name body) = true /\
  Field.truthy (email body) = true /\ Field.truthy (password body) = true /\
  (V2.signup body st).2
  = saveUser (User.mk (stored (role body)) (stored (name body))
                      (Some (toLowerCase (Field.toString (email body))))
                      (Some (hashSync (Field.toString (password body))))) st.
Proof.
  unfold V2.signup.
  destruct (Field.truthy (role body)), (Field.truthy (name body)),
           (Field.truthy (email body)), (Field.truthy (password body)); simpl;
    try discriminate.
  destruct (findOne _ (users st)) eqn:Hfree; [discriminate|]. done.
Qed.

Lemma V1_signup_success a body st m :
  (V1.signup a body st).1 = Json 200 (Message m) ->
  exists pw,
    password body = Val pw /\
    findOne (hasEmail (stored (email body))) (users st) = None /\
    (V1.signup a body st).2
    = saveUser (User.mk (stored (role body)) (stored (name body))
                        (stored (email body)) (Some (hashSync pw))) st.
Proof.
  unfold V1.signup.
  destruct (V1.verifyToken a) as [r|decoded] eqn:Hv.
  - destruct (V1_verifyToken_refusal _ _ Hv) as [m' ->]. discriminate.
  - destruct (decide (Jwt.role decoded <> Some "admin")); [discriminate|].
    destruct (password body) as [| |pw]; [discriminate.. |].
    destruct (findOne _ (users st)) eqn:Hfree; [discriminate|].
    intros _. by exists pw.
Qed.

End LoginFacts.

(** X19. Signup then login, variant 2: when bcrypt accepts a password
    against its own hash and the lowercased email is not the empty
    string, a signup that succeeded for a role other than "teacher" lets
    the same role, the lowercased email and the same password log in,
    under the role and name that were signed up. *)
Theorem V2_signup_then_login `{Env} (body : credentials) (st : Store) :
  (forall pw, compareSync pw (hashSync pw) = true) ->
  toLowerCase (Field.toString (email body)) <> ""%string ->
  role body <> Val "teacher"%string ->
  (V2.signup body st).1 = Json 200 (Message "Signup successful") ->
  let st' := (V2.signup body st).2 in
  exists s,
    V2.login (mkCredentials (role body) (name body)
                (Val (toLowerCase (Field.toString (email body)))) (password body)) st'
    = (Json 200 (Data s), st') /\
    sessionRole s = stored (role body) /\ sessionName s = stored (name body).
Proof.
  intros Hbcrypt Hne Hrole Hok st'.
  destruct (V2_signup_success body st _ Hok) as (Hfree & Hr & Hn & He & Hp & Hst').
  subst st'. rewrite Hst'. unfold V2.login. cbn [role email password].
  assert (Hlow : Field.truthy (Val (toLowerCase (Field.toString (email body)))) = true).
  { cbn. destruct (toLowerCase (Field.toString (email body))); [by destruct Hne | done]. }
  rewrite Hr, Hlow, Hp. cbn [negb orb].
  rewrite decide_False by done.
  rewrite saveUser_users. cbn [stored].
  rewrite (findOne_isUser_saved (Some (toLowerCase (Field.toString (email body))))
             (stored (role body)) (nextId st) _ _ Hfree) by done.
  destruct (truthy_Val _ Hp) as (pw & Hpw & _). rewrite Hpw.
  cbn [Field.toString snd User.password].
  rewrite Hbcrypt. cbn [negb]. eexists. split; [reflexivity|]. by split.
Qed.

Lemma V2_signup_then_login_witness :
  (forall pw, @compareSync demoEnv pw (@hashSync demoEnv pw) = true) /\
  exists s,
    V2.login (H := demoEnv) (studentSignup "bob@x.com" "pw")
      (V2.signup (H := demoEnv) (studentSignup "Bob@X.com" "pw") registered).2
    = (Json 200 (Data s),
       (V2.signup (H := demoEnv) (studentSignup "Bob@X.com" "pw") registered).2).
Proof.
  assert (Hb : forall pw, @compareSync demoEnv pw (@hashSync demoEnv pw) = true).
  { intros pw. simpl. apply String.eqb_refl. }
  split; [exact Hb|].
  destruct (V2_signup_then_login (H := demoEnv) (studentSignup "Bob@X.com" "pw") registered
              Hb) as (s & Hs & _); [discriminate | discriminate | reflexivity |].
  exists s. exact Hs.
Defined.

(** X20. Signup then login, variant 1: when bcrypt accepts a password
    against its own hash, a signup that succeeded for a role other than
    "teacher" lets the very same body log in. *)
Theorem V1_signup_then_login `{Env}
    (authorization : option string) (body : credentials) (st : Store) :
  (forall pw, compareSync pw (hashSync pw) = true) ->
  role body <> Val "teacher"%string ->
  (V1.signup authorization body st).1 = Json 200 (Message "User created") ->
  let st' := (V1.signup authorization body st).2 in
  exists s,
    V1.login body st' = (Json 200 (Data s), st') /\
    sessionRole s = stored (role body) /\ sessionName s = stored (name body).
Proof.
  intros Hbcrypt Hrole Hok st'.
  destruct (V1_signup_success authorization body st _ Hok) as (pw & Hp & Hfree & Hst').
  subst st'. rewrite Hst'. unfold V1.login.
  rewrite decide_False by done. rewrite saveUser_users.
  rewrite (findOne_isUser_saved (stored (email body)) (stored (role body)) (nextId st)
             _ _ Hfree) by done.
  rewrite Hp. cbn [snd User.password]. rewrite Hbcrypt. cbn [negb].
  eexists. split; [reflexivity|]. by split.
Qed.

Lemma V1_signup_then_login_witness :
  (forall pw, @compareSync demoEnv pw (@hashSync demoEnv pw) = true) /\
  exists s,
    V1.login (H := demoEnv) (studentSignup "Bob@X.com" "pw")
      (V1.signup (H := demoEnv) (Some "Bearer admin-token")
         (studentSignup "Bob@X.com" "pw") registered).2
    = (Json 200 (Data s),
       (V1.signup (H := demoEnv) (Some "Bearer admin-token")
          (studentSignup "Bob@X.com" "pw") registered).2).
Proof.
  assert (Hb : forall pw, @compareSync demoEnv pw (@hashSync demoEnv pw) = true).
  { intros pw. simpl. apply String.eqb_refl. }
  split; [exact Hb|].
  destruct (V1_signup_then_login (H := demoEnv) (Some "Bearer admin-token"%string)
              (studentSignup "Bob@X.com" "pw") registered Hb) as (s & Hs & _);
    [discriminate | reflexivity |].
  exists s. exact Hs.
Defined.

(** X21. The login of variant 2 compares the email as it is typed: while
    the stored emails are in lower case, a login for a role other than
    "teacher" under an email with an upper-case letter, one that is not
    its own lower-case form, is answered 400 "Invalid credentials",
    whatever the password; [toLowerCase] leaves the empty string as it
    is. *)
Theorem V2_login_email_as_typed `{Env} (body : credentials) (st : Store) (e : string) :
  toLowerCase "" = ""%string ->
  lowercaseEmails (users st) ->
  email body = Val e -> toLowerCase e <> e ->
  role body <> Val "teacher"%string ->
  Field.truthy (role body) = true -> Field.truthy (password body) = true ->
  V2.login body st = (Json 400 (Message "Invalid credentials"), st).
Proof.
  intros Hempty Hlow He Hcase Hrole Hr Hp. unfold V2.login.
  assert (Het : Field.truthy (email body) = true).
  { rewrite He. destruct e; [by destruct Hcase | done]. }
  rewrite Hr, Het, Hp. cbn [negb orb]. rewrite decide_False by done.
  assert (findOne (isUser (stored (email body)) (stored (role body))) (users st) = None)
    as ->; [|done].
  unfold findOne. apply fmap_None, list_find_None, Forall_forall.
  intros u Hu [Hue _]. unfold lowercaseEmails in Hlow. rewrite Forall_forall in Hlow.
  destruct (Hlow u Hu) as (e' & He' & Hl). rewrite He, He' in Hue.
  injection Hue as ->. by apply Hcase.
Qed.

Lemma V2_login_email_as_typed_witness :
  lowercaseEmails (H := demoEnv) (users registered) /\
  V2.login (H := demoEnv) (studentSignup "Alice@x.com" "secret") registered
  = (Json 400 (Message "Invalid credentials"), registered) /\
  exists s, V2.login (H := demoEnv) (studentSignup "alice@x.com" "secret") registered
            = (Json 200 (Data s), registered).
Proof.
  assert (Hlow : lowercaseEmails (H := demoEnv) (users registered)).
  { apply Forall_singleton. by eexists. }
  split_and!; [exact Hlow | | by eexists].
  apply (V2_login_email_as_typed (H := demoEnv) _ registered "Alice@x.com" eq_refl Hlow);
    [reflexivity | discriminate | discriminate | reflexivity | reflexivity].
Defined.

(** X22. A login reads and never writes: either variant leaves the store
    as it was, whatever the body; and in variant 2 nothing the login runs
    into escapes its [try]. *)
Theorem login_reads_only `{Env} (body : credentials) (st : Store) :
  (V1.login body st).2 = st /\
  (V2.login body st).2 = st /\
  forall e, (V2.login body st).1 <> Rejected e.
Proof.
  split_and!; [apply V1_login_store | apply V2_login_store |].
  intros e. unfold V2.login. by repeat case_match.
Qed.

(** X23. For a role other than "teacher" a wrong password and an unknown
    account get the same answer, 400 "Invalid credentials", and in either
    variant the whole response to a wrong password equals the response the
    same request gets from a store that has no such account. *)
Theorem login_failures_look_alike `{Env}
    (body : credentials) (st st0 : Store) (u : ObjectId * User.doc) (pw h : string) :
  role body <> Val "teacher"%string ->
  findOne (isUser (stored (email body)) (stored (role body))) (users st) = Some u ->
  password body = Val pw -> User.password u.2 = Some h ->
  compareSync pw h = false ->
  findOne (isUser (stored (email body)) (stored (role body))) (users st0) = None ->
  (V1.login body st).1 = Json 400 (Message "Invalid credentials") /\
  (V1.login body st).1 = (V1.login body st0).1 /\
  (V2.login body st).1 = (V2.login body st0).1.
Proof.
  intros Hrole Hu Hp Hh Hcmp Hnone.
  assert (H1 : (V1.login body st).1 = Json 400 (Message "Invalid credentials")).
  { unfold V1.login. rewrite decide_False by done. by rewrite Hu, Hp, Hh, Hcmp. }
  split_and!; [exact H1 | |].
  - rewrite H1. unfold V1.login. rewrite decide_False by done. by rewrite Hnone.
  - unfold V2.login.
    destruct (negb (Field.truthy (role body)) || negb (Field.truthy (email body))
              || negb (Field.truthy (password body))); [done|].
    destruct (decide (role body = Val "teacher"%string)) as [|_]; [done|].
    by rewrite Hu, Hnone, Hp, Hh, Hcmp.
Qed.

Lemma login_failures_look_alike_witness :
  (V1.login (H := demoEnv) (studentSignup "alice@x.com" "guess") registered).1
  = (V1.login (H := demoEnv) (studentSignup "alice@x.com" "guess") emptyStore).1 /\
  (V2.login (H := demoEnv) (studentSignup "alice@x.com" "guess") registered).1
  = (V2.login (H := demoEnv) (studentSignup "alice@x.com" "guess") emptyStore).1.
Proof.
  pose proof (login_failures_look_alike (H := demoEnv)
                (studentSignup "alice@x.com" "guess") registered emptyStore
                (0, User.mk (Some "student") (Some "Alice") (Some "alice@x.com")
                            (Some "hash:secret")) "guess" "hash:secret") as Hw.
  destruct Hw as (_ & H2 & H3);
    [discriminate | reflexivity | reflexivity | reflexivity | reflexivity | reflexivity |].
  split; [exact H2 | exact H3].
Defined.

(** ** The demo accounts *)

Lemma findOne_hasEmail_elem e (c : collection User.doc) :
  is_Some (findOne (hasEmail e) c) <-> exists u, u ∈ c /\ User.email u.2 = e.
Proof.
  split.
  - intros [u Hu]. unfold findOne in Hu.
    apply fmap_Some in Hu as ([i u'] & (Hi & He & _)%list_find_Some & ->).
    exists u'. split; [by eapply list_elem_of_lookup_2 | exact He].
  - intros (u & Hu & He). by eapply findOne_hasEmail_Some.
Qed.

Lemma seeded_email `{Env} e u st :
  User.email u = e ->
  is_Some (findOne (hasEmail e)
             (users match findOne (hasEmail e) (users st) with
                    | Some _ => st
                    | None => saveUser u st
                    end)).
Proof.
  intros He. destruct (findOne (hasEmail e) (users st)) eqn:Hf.
  - rewrite Hf. by eexists.
  - apply findOne_hasEmail_elem. exists (nextId st, u). split; [|done].
    rewrite saveUser_users. apply elem_of_app. right. apply list_elem_of_here.
Qed.

(** X26. Seeding the demo accounts is idempotent and keeps what is there:
    afterwards both demo emails are stored, the users stored before are
    still the first ones, unchanged, and seeding again changes nothing. *)
Theorem seedDefaultAccounts_idempotent `{Env} (st : Store) :
  let st' := V2.seedDefaultAccounts st in
  is_Some (findOne (hasEmail (Some "student@smartclass.com"%string)) (users st')) /\
  is_Some (findOne (hasEmail (Some "admin@smartclass.com"%string)) (users st')) /\
  users st `prefix_of` users st' /\
  V2.seedDefaultAccounts st' = st'.
Proof.
  intros st'.
  assert (Hstudent : is_Some (findOne (hasEmail (Some "student@smartclass.com"%string))
                                (users st'))
          /\ is_Some (findOne (hasEmail (Some "admin@smartclass.com"%string)) (users st'))
          /\ users st `prefix_of` users st').
  { subst st'. unfold V2.seedDefaultAccounts.
    pose proof (seeded_email (Some "student@smartclass.com"%string)
                  (User.mk (Some "student") (Some "Demo Student")
                     (Some "student@smartclass.com") (Some (hashSync "Vignan"))) st eq_refl)
      as Hs.
    set (st1 := match findOne (hasEmail (Some "student@smartclass.com"%string)) (users st) with
                | Some _ => st | None => _ end) in *.
    assert (Hpre1 : users st `prefix_of` users st1).
    { subst st1. destruct (findOne _ (users st)); [done|].
      rewrite saveUser_users. by apply prefix_app_r. }
    pose proof (seeded_email (Some "admin@smartclass.com"%string)
                  (User.mk (Some "admin") (Some "Demo Admin")
                     (Some "admin@smartclass.com") (Some (hashSync "Vignanfaculty")))
                  st1 eq_refl) as Ha.
    destruct (findOne (hasEmail (Some "admin@smartclass.com"%string)) (users st1)) eqn:Hf.
    - split_and!; [exact Hs | by rewrite Hf | exact Hpre1].
    - split_and!; [| exact Ha |].
      + apply findOne_hasEmail_elem. apply findOne_hasEmail_elem in Hs as (u & Hu & He).
        exists u. split; [|exact He]. rewrite saveUser_users. apply elem_of_app. by left.
      + rewrite saveUser_users. etrans; [exact Hpre1 | by apply prefix_app_r]. }
  destruct Hstudent as (Hs & Ha & Hpre). split_and!; [exact Hs | exact Ha | exact Hpre |].
  unfold V2.seedDefaultAccounts at 1.
  destruct Hs as [us Hs]. rewrite Hs. destruct Ha as [ua Ha]. by rewrite Ha.
Qed.

